(** * Smart POS billing: totals, item-list codec, transaction store, daily report

    A shallow embedding of the billing core of the repository
    ([billing_core.py], [pos_logic.py], [admin.py]; [coffeebot.py] repeats
    the [pos_logic.py] and [admin.py] functions verbatim) together with the
    Python built-ins these functions call.

    Modelling conventions.
    - A Python [str] is a [string]; a character stands for the code point of
      the same number, so the model covers the strings over code points
      0..255. White space, digits and letter case are those of Python for
      these code points.
    - A Python [int] is a [Z]. The interpreter's configurable limit on the
      number of digits converted between [int] and [str] is not modelled:
      conversions are those of an interpreter without the limit.
    - A Python [float] is a binary64 value, [spec_float] with precision 53
      and exponent bound 1024. [+] and [*] are the correctly rounded IEEE
      operations of [SpecFloat]; [float(s)], float literals and [round(x, 2)]
      go through the exact decimal value, as the interpreter's correctly
      rounded conversions do. [sum] adds from left to right.
    - An exception is a value of [exn]; a call that can raise returns a
      [result]. Failures of the file system are not modelled.
    - The sales file is seen through the [csv] module: its content is the
      list of rows that [csv.reader] yields and [csv.writer] appends. The
      clock enters as the text of the time stamp and of today's date. *)

From Stdlib Require Import ZArith NArith Lia Ascii String SpecFloat.
From Stdlib Require Import DecimalString DecimalZ.
From stdpp Require Import list strings gmap.

Local Open Scope Z_scope.

(** ** Exceptions *)

Inductive exn : Type :=
| ValueError (msg : string)
| OverflowError (msg : string)
| AttributeError (msg : string)
| IndexError (msg : string).

Inductive result (A : Type) : Type :=
| Ok (a : A)
| Raise (e : exn).
Arguments Ok {A} a.
Arguments Raise {A} e.

Definition bind {A B} (r : result A) (k : A -> result B) : result B :=
  match r with
  | Ok a => k a
  | Raise e => Raise e
  end.

Notation "'let*' x ':=' r 'in' k" := (bind r (fun x => k))
  (at level 10, x name, r at level 100, k at level 200, only parsing).

(** [try: body except ValueError: handler] *)
Definition try_except_ValueError {A} (body : result A) (handler : result A) : result A :=
  match body with
  | Raise (ValueError _) => handler
  | other => other
  end.

Definition is_ValueError {A} (r : result A) : Prop :=
  match r with
  | Raise (ValueError _) => True
  | _ => False
  end.

Definition raises {A} (r : result A) : Prop :=
  match r with
  | Raise _ => True
  | Ok _ => False
  end.

(** ** Python strings *)

Module Str.

Definition code (c : ascii) : N := N_of_ascii c.

(** [str.strip()] removes the characters for which [str.isspace] holds:
    below 256 these are 9..13, 28..32, 133 and 160. *)
Definition isspace (c : ascii) : bool :=
  let n := code c in
  (((9 <=? n) && (n <=? 13)) || ((28 <=? n) && (n <=? 32))
   || (n =? 133) || (n =? 160))%N.

Definition isdigit (c : ascii) : bool :=
  let n := code c in ((48 <=? n) && (n <=? 57))%N.

Definition digit_val (c : ascii) : Z := Z.of_N (code c) - 48.

Fixpoint lstrip_by (ws : ascii -> bool) (s : string) : string :=
  match s with
  | String c s' => if ws c then lstrip_by ws s' else s
  | EmptyString => EmptyString
  end.

Fixpoint rstrip_by (ws : ascii -> bool) (s : string) : string :=
  match s with
  | String c s' =>
      match rstrip_by ws s' with
      | EmptyString => if ws c then EmptyString else String c EmptyString
      | r => String c r
      end
  | EmptyString => EmptyString
  end.

Definition strip_by (ws : ascii -> bool) (s : string) : string :=
  lstrip_by ws (rstrip_by ws s).

(** [s.strip()] *)
Definition strip (s : string) : string := strip_by isspace s.

(** [s.startswith(p)] *)
Fixpoint startswith (s p : string) {struct p} : bool :=
  match p with
  | EmptyString => true
  | String a p' =>
      match s with
      | String b s' => Ascii.eqb a b && startswith s' p'
      | EmptyString => false
      end
  end.

(** [s.split(sep)] for a one-character separator *)
Fixpoint split (sep : ascii) (s : string) : list string :=
  match s with
  | EmptyString => [EmptyString]
  | String c s' =>
      if Ascii.eqb c sep then EmptyString :: split sep s'
      else match split sep s' with
           | p :: ps => String c p :: ps
           | [] => [String c EmptyString]
           end
  end.

(** [sep.join(parts)] *)
Fixpoint join (sep : string) (parts : list string) : string :=
  match parts with
  | [] => EmptyString
  | [p] => p
  | p :: ps => p +:+ sep +:+ join sep ps
  end.

Fixpoint drop (n : nat) (s : string) : string :=
  match n, s with
  | S n', String _ s' => drop n' s'
  | _, _ => s
  end.

(** The rightmost occurrence of the non-empty [sep] in [s]: the text
    before it and the text after it. *)
Fixpoint rfind_split (sep s : string) : option (string * string) :=
  match s with
  | EmptyString => None
  | String c s' =>
      match rfind_split sep s' with
      | Some (h, t) => Some (String c h, t)
      | None =>
          if startswith s sep
          then Some (EmptyString, drop (String.length sep) s)
          else None
      end
  end.

(** [s.rsplit(sep, 1)]: split once, at the rightmost occurrence of [sep];
    the one-element list [[s]] when [sep] does not occur. *)
Definition rsplit1 (sep s : string) : list string :=
  match rfind_split sep s with
  | Some (h, t) => [h; t]
  | None => [s]
  end.

(** [sub in s] *)
Fixpoint contains (sub s : string) : bool :=
  startswith s sub
  || match s with
     | String _ s' => contains sub s'
     | EmptyString => false
     end.

End Str.

(** ** Python integers and their decimal text *)

Module Int.

(** The characters that [int()] and [float()] skip around a number: the C
    white space 9..13 and 32, and (below 256) 133 and 160, which the
    conversion first turns into a space. *)
Definition isspace (c : ascii) : bool :=
  let n := Str.code c in
  (((9 <=? n) && (n <=? 13)) || (n =? 32) || (n =? 133) || (n =? 160))%N.

Definition is_underscore (c : ascii) : bool := Ascii.eqb c "_".

Definition starts_with_digit (s : string) : bool :=
  match s with
  | String c _ => Str.isdigit c
  | EmptyString => false
  end.

(** Value of [digit (_? digit)*], read from left to right with the
    digits seen so far in [acc]; [None] on a misplaced underscore or a
    character that is not a digit. *)
Fixpoint digits_value (acc : Z) (s : string) : option Z :=
  match s with
  | EmptyString => Some acc
  | String c s' =>
      if Str.isdigit c then digits_value (10 * acc + Str.digit_val c) s'
      else if is_underscore c then
        if starts_with_digit s' then digits_value acc s' else None
      else None
  end.

Definition unsigned_value (s : string) : option Z :=
  if starts_with_digit s then digits_value 0 s else None.

(** [int(s)] in base 10: optional white space, an optional sign, digits
    with single underscores between them, optional white space. *)
Definition of_str (s : string) : result Z :=
  let invalid := Raise (ValueError "invalid literal for int() with base 10") in
  match Str.strip_by isspace s with
  | String "+" body =>
      match unsigned_value body with Some v => Ok v | None => invalid end
  | String "-" body =>
      match unsigned_value body with Some v => Ok (- v) | None => invalid end
  | body =>
      match unsigned_value body with Some v => Ok v | None => invalid end
  end.

(** [str(z)], also what [f"{z}"] produces *)
Definition to_str (z : Z) : string := NilZero.string_of_int (Z.to_int z).

End Int.

(** ** Python floats: binary64 *)

Module Float.

Definition prec : Z := 53.
Definition emax : Z := 1024.

Abbreviation float := spec_float.

Definition add : float -> float -> float := SFadd prec emax.
Definition mul : float -> float -> float := SFmul prec emax.

Definition zero : float := S754_zero false.

(** The binary64 value nearest to [n / d] (ties to even), with sign [s];
    an infinity when the quotient is beyond the largest finite value. *)
Definition of_ratio (s : bool) (n d : positive) : float :=
  let '(q, e, l) := SFdiv_core_binary prec emax (Zpos n) 0 (Zpos d) 0 in
  binary_round_aux prec emax s q e l.

(** The value that a decimal literal [m * 10^e] denotes: what the
    interpreter's correctly rounded string-to-double conversion returns. *)
Definition of_decimal (s : bool) (m : Z) (e : Z) : float :=
  match m with
  | Zpos p =>
      match e with
      | Zneg k => of_ratio s p (10 ^ k)
      | _ => of_ratio s (p * Z.to_pos (10 ^ e)) 1
      end
  | _ => S754_zero s
  end.

(** Conversion of an [int] operand to [float]: the nearest binary64
    value, [OverflowError] when that is not finite. *)
Definition of_int (z : Z) : result float :=
  match binary_normalize prec emax z 0 false with
  | S754_infinity _ => Raise (OverflowError "int too large to convert to float")
  | x => Ok x
  end.

(** The integer nearest to [m * 2^e * 100], ties to even. *)
Definition scaled_hundredths (m : positive) (e : Z) : Z :=
  match e with
  | Zneg k =>
      let d := Zpos (2 ^ k) in
      let q := (Zpos m * 100) / d in
      let r := (Zpos m * 100) mod d in
      match 2 * r ?= d with
      | Lt => q
      | Gt => q + 1
      | Eq => if Z.even q then q else q + 1
      end
  | _ => Zpos m * 100 * 2 ^ e
  end.

(** [round(x, 2)]: the decimal with two fractional digits nearest to the
    exact value of [x] (ties to even), converted back to the nearest
    binary64 value; infinities and NaN are returned unchanged. *)
Definition round2 (x : float) : float :=
  match x with
  | S754_finite s m e => of_decimal s (scaled_hundredths m e) (-2)
  | _ => x
  end.

Definition two_digits (n : Z) : string :=
  if n <? 10 then "0" +:+ Int.to_str n else Int.to_str n.

(** [f"{x:.2f}"] *)
Definition format_2f (x : float) : string :=
  match x with
  | S754_nan => "nan"
  | S754_infinity s => if s then "-inf" else "inf"
  | S754_zero s => if s then "-0.00" else "0.00"
  | S754_finite s m e =>
      let n := scaled_hundredths m e in
      (if s then "-" else "") +:+ Int.to_str (n / 100) +:+ "." +:+ two_digits (n mod 100)
  end.

End Float.

(** *** [float(s)] *)

Module FloatParse.

Import Float.

Definition to_lower (c : ascii) : ascii :=
  let n := Str.code c in
  if ((65 <=? n) && (n <=? 90))%N then ascii_of_N (n + 32) else c.

Fixpoint lower (s : string) : string :=
  match s with
  | String c s' => String (to_lower c) (lower s')
  | EmptyString => EmptyString
  end.

(** Underscores may only stand between two digits; they are removed
    before the number is read. *)
Fixpoint remove_underscores (after_digit : bool) (s : string) : option string :=
  match s with
  | EmptyString => Some EmptyString
  | String c s' =>
      if Int.is_underscore c then
        if after_digit && Int.starts_with_digit s'
        then remove_underscores false s'
        else None
      else String c <$> remove_underscores (Str.isdigit c) s'
  end.

(** The longest run of digits at the start of [s]: its value continuing
    [acc], its length, and the text after it. *)
Fixpoint span_digits (acc : Z) (s : string) : Z * nat * string :=
  match s with
  | String c s' =>
      if Str.isdigit c then
        let '(v, n, rest) := span_digits (10 * acc + Str.digit_val c) s' in
        (v, S n, rest)
      else (acc, O, s)
  | EmptyString => (acc, O, s)
  end.

Definition take_sign (s : string) : bool * string :=
  match s with
  | String "-" s' => (true, s')
  | String "+" s' => (false, s')
  | _ => (false, s)
  end.

(** An exponent part [e] or [E], an optional sign and at least one digit;
    when the digits are missing nothing is consumed. *)
Definition take_exponent (s : string) : Z * string :=
  match s with
  | String c s' =>
      if Ascii.eqb (to_lower c) "e" then
        let '(neg, s'') := take_sign s' in
        let '(v, n, rest) := span_digits 0 s'' in
        match n with
        | O => (0, s)
        | _ => (if neg then - v else v, rest)
        end
      else (0, s)
  | EmptyString => (0, s)
  end.

(** A decimal number at the start of [s]: sign, digits, an optional point
    and digits, an optional exponent. [None] when there is no digit. *)
Definition take_decimal (s : string) : option (float * string) :=
  let '(neg, s1) := take_sign s in
  let '(ip, ni, s2) := span_digits 0 s1 in
  let '(m, nf, s3) :=
    match s2 with
    | String "." s2' => span_digits ip s2'
    | _ => (ip, O, s2)
    end in
  match ni, nf with
  | O, O => None
  | _, _ =>
      let '(ex, s4) := take_exponent s3 in
      Some (of_decimal neg m (ex - Z.of_nat nf), s4)
  end.

(** [inf], [infinity] or [nan] in any letter case, with an optional sign. *)
Definition take_inf_or_nan (s : string) : option (float * string) :=
  let '(neg, s1) := take_sign s in
  let l := lower s1 in
  if Str.startswith l "infinity" then Some (S754_infinity neg, Str.drop 8 s1)
  else if Str.startswith l "inf" then Some (S754_infinity neg, Str.drop 3 s1)
  else if Str.startswith l "nan" then Some (S754_nan, Str.drop 3 s1)
  else None.

Definition of_str (s : string) : result float :=
  let invalid := Raise (ValueError "could not convert string to float") in
  match remove_underscores false (Str.strip_by Int.isspace s) with
  | None => invalid
  | Some t =>
      let parsed :=
        match take_decimal t with
        | Some r => Some r
        | None => take_inf_or_nan t
        end in
      match parsed with
      | Some (x, EmptyString) => Ok x
      | _ => invalid
      end
  end.

End FloatParse.

(** ** The order model and the totals ([billing_core.py], [pos_logic.py]) *)

(** [menus.GST_RATE], and [GST_RATE] of [pos_logic.py]: the literal [0.05] *)
Definition GST_RATE : Float.float := Float.of_decimal false 5 (-2).

(** A price literal such as [120.0] *)
Definition rupees (n : Z) : Float.float := Float.of_decimal false n 0.

(** The menus, the same in [menus.py], [pos_logic.py] and [coffeebot.py] *)
Definition DRINKS_MENU : gmap string Float.float :=
  list_to_map
    [("Latte", rupees 120); ("Espresso", rupees 100); ("Cappuccino", rupees 130);
     ("Black Coffee", rupees 90); ("Masala Tea", rupees 60)].

Definition SNACKS_MENU : gmap string Float.float :=
  list_to_map
    [("Vada pav", rupees 30); ("Samosa", rupees 25); ("Grilled Sandwich", rupees 70);
     ("French Fries", rupees 80); ("Chocolate Donut", rupees 60)].

(** [get_all_items]: the empty dict updated with the drinks, then with the
    snacks, whose entries would win on a common key. *)
Definition get_all_items : gmap string Float.float :=
  SNACKS_MENU ∪ (DRINKS_MENU ∪ ∅).

(** The dataclass [OrderItem], the same in both files *)
Record OrderItem : Type := mkOrderItem {
  name : string;
  quantity : Z;
  unit_price : Float.float;
}.

(** The property [line_total]: [self.unit_price * self.quantity]; the
    [int] operand is converted to [float] first. *)
Definition line_total (item : OrderItem) : result Float.float :=
  let* q := Float.of_int (quantity item) in
  Ok (Float.mul (unit_price item) q).

(** [sum(item.line_total for item in order_items)], continued from the
    running total [acc]: the items are taken from left to right, each line
    total is computed when its turn comes. The start value is the integer
    0, written here as the float [+0.0] to which the first addition (and
    every later use of an empty sum) converts it. *)
Fixpoint sum_line_totals (acc : Float.float) (order_items : list OrderItem)
  : result Float.float :=
  match order_items with
  | [] => Ok acc
  | item :: rest =>
      let* t := line_total item in
      sum_line_totals (Float.add acc t) rest
  end.

Definition totals : Type := Float.float * Float.float * Float.float.

(** [validate_quantity], the same in both files *)
Definition validate_quantity (quantity : Z) : result Z :=
  if quantity <=? 0
  then Raise (ValueError "Quantity must be a positive integer.")
  else Ok quantity.

(** [format_order_items], the same in both files *)
Definition format_order_items (order_items : list OrderItem) : string :=
  Str.join "; "
    (map (fun item => name item +:+ " x" +:+ Int.to_str (quantity item)) order_items).

(** *** The sales file *)

Definition csv_row : Type := list string.

(** [None]: the path does not exist; [Some rows]: the rows of the file, the
    empty list for a file of size 0. *)
Definition file : Type := option (list csv_row).

Definition HEADER : csv_row :=
  ["CustomerName"; "OrderedItems"; "Subtotal"; "GST"; "FinalTotal";
   "PaymentMethod"; "DateTime"].

(** [csv_path.exists() and csv_path.stat().st_size > 0] *)
Definition exists_and_nonempty (f : file) : bool :=
  match f with
  | Some (_ :: _) => true
  | _ => false
  end.

(** [_ensure_sales_file_has_header]: mode ["w"] creates or truncates. *)
Definition _ensure_sales_file_has_header (f : file) : file :=
  if exists_and_nonempty f then f else Some [HEADER].

(** [csv.writer(f).writerow(row)] on a file opened in mode ["a"] *)
Definition append_row (f : file) (row : csv_row) : file :=
  match f with
  | Some rows => Some (rows ++ [row])
  | None => Some [row]
  end.

Section SaveTransaction.

(** The [calculate_totals] of the file in which [save_transaction] stands *)
Variable calculate_totals : list OrderItem -> result totals.

(** [save_transaction]; [timestamp] is
    [datetime.now().strftime("%Y-%m-%d %H:%M:%S")], [f] the state of the
    file at [csv_path]. The result comes with the state of the file after
    the call. *)
Definition save_transaction_with (customer_name : string)
    (order_items : list OrderItem) (payment_method : string)
    (timestamp : string) (f : file) : result totals * file :=
  match Str.strip customer_name with
  | EmptyString => (Raise (ValueError "Customer name cannot be empty."), f)
  | _ =>
      match order_items with
      | [] => (Raise (ValueError "Order must contain at least one item."), f)
      | _ =>
          match calculate_totals order_items with
          | Raise e => (Raise e, f)
          | Ok (subtotal, gst_amount, final_total) =>
              let ordered_items_str := format_order_items order_items in
              let f1 := _ensure_sales_file_has_header f in
              let f2 :=
                append_row f1
                  [Str.strip customer_name; ordered_items_str;
                   Float.format_2f subtotal; Float.format_2f gst_amount;
                   Float.format_2f final_total; Str.strip payment_method;
                   timestamp] in
              (Ok (subtotal, gst_amount, final_total), f2)
          end
      end
  end.

End SaveTransaction.

Module billing_core.

(** [calculate_totals] of [billing_core.py]: the tax and the final total
    are computed from the sum as it is, the returned subtotal is rounded
    last. *)
Definition calculate_totals (order_items : list OrderItem) : result totals :=
  let* subtotal := sum_line_totals Float.zero order_items in
  let gst_amount := Float.round2 (Float.mul subtotal GST_RATE) in
  let final_total := Float.round2 (Float.add subtotal gst_amount) in
  Ok (Float.round2 subtotal, gst_amount, final_total).

Definition save_transaction := save_transaction_with calculate_totals.

End billing_core.

Module pos_logic.

(** [calculate_totals] of [pos_logic.py] (and of [coffeebot.py]): the sum is
    rounded before the tax is computed. *)
Definition calculate_totals (order_items : list OrderItem) : result totals :=
  let* subtotal := sum_line_totals Float.zero order_items in
  let subtotal := Float.round2 subtotal in
  let gst_amount := Float.round2 (Float.mul subtotal GST_RATE) in
  let final_total := Float.round2 (Float.add subtotal gst_amount) in
  Ok (subtotal, gst_amount, final_total).

Definition save_transaction := save_transaction_with calculate_totals.

End pos_logic.

(** ** The daily report ([admin.py]) *)

(** A [collections.Counter]: a dict from item name to count. The pairs are
    kept in insertion order, every key once; [most_common] depends on that
    order. *)
Definition Counter : Type := list (string * Z).

(** [c[k]] of a Counter: 0 for a missing key *)
Fixpoint counter_get (c : Counter) (k : string) : Z :=
  match c with
  | [] => 0
  | (k', v) :: c' => if String.eqb k' k then v else counter_get c' k
  end.

(** [c[k] = v]: an existing key keeps its place, a new key goes last. *)
Fixpoint dict_set (c : Counter) (k : string) (v : Z) : Counter :=
  match c with
  | [] => [(k, v)]
  | (k', v') :: c' =>
      if String.eqb k' k then (k', v) :: c' else (k', v') :: dict_set c' k v
  end.

(** [c[k] += q] *)
Definition counter_iadd (c : Counter) (k : string) (q : Z) : Counter :=
  dict_set c k (counter_get c k + q).

(** [c.update(other)] for a Counter [other]: [dict.update] when [c] is
    empty, else [c[elem] = count + c.get(elem, 0)] for each item of
    [other]. *)
Definition counter_update (c other : Counter) : Counter :=
  match c with
  | [] => other
  | _ => fold_left (fun acc '(elem, count) => dict_set acc elem (count + counter_get acc elem)) other c
  end.

(** [max(items, key=itemgetter(1))] continued from the best item so far:
    a later item replaces it only when its count is strictly greater. *)
Fixpoint max_by_count (best : string * Z) (items : list (string * Z)) : string * Z :=
  match items with
  | [] => best
  | item :: rest =>
      if snd best <? snd item then max_by_count item rest
      else max_by_count best rest
  end.

(** [c.most_common(1)], which is [heapq.nlargest(1, c.items(), key=...)] *)
Definition most_common_1 (c : Counter) : list (string * Z) :=
  match c with
  | [] => []
  | item :: rest => [max_by_count item rest]
  end.

(** A row as [csv.DictReader] yields it: a dict from column name to the
    cell, [None] for a cell that the line does not have. (The entry for
    surplus cells, under the key [None], is never read and left out.) *)
Abbreviation dict_row := (gmap string (option string)).

(** [row.get(key, default)] *)
Definition row_get (row : dict_row) (key : string) (default : string) : option string :=
  match row !! key with
  | Some cell => cell
  | None => Some default
  end.

(** The row that [csv.DictReader.__next__] builds from a line *)
Definition make_dict_row (fieldnames : list string) (line : csv_row) : dict_row :=
  let d := fold_left (fun d '(k, v) => <[k := Some v]> d) (zip fieldnames line) ∅ in
  fold_left (fun d k => <[k := None]> d) (drop (length line) fieldnames) d.

Definition is_blank (line : csv_row) : bool :=
  match line with
  | [] => true
  | _ => false
  end.

(** [csv.DictReader(f)]: the first line gives the field names, blank lines
    are skipped. *)
Definition DictReader (lines : list csv_row) : list dict_row :=
  match lines with
  | [] => []
  | fieldnames :: rest =>
      map (make_dict_row fieldnames) (List.filter (fun l => negb (is_blank l)) rest)
  end.

Module admin.

(** The loop of [_load_todays_transactions] *)
Fixpoint load_loop (today_str : string) (reader : list dict_row) (rows : list dict_row)
  : result (list dict_row) :=
  match reader with
  | [] => Ok rows
  | row :: reader' =>
      match row_get row "DateTime" "" with
      | None => Raise (AttributeError "'NoneType' object has no attribute 'startswith'")
      | Some timestamp =>
          if Str.startswith timestamp today_str
          then load_loop today_str reader' (rows ++ [row])
          else load_loop today_str reader' rows
      end
  end.

(** [_load_todays_transactions]; [today_str] is
    [date.today().strftime("%Y-%m-%d")]. *)
Definition _load_todays_transactions (f : file) (today_str : string)
  : result (list dict_row) :=
  if negb (exists_and_nonempty f) then Ok []
  else
    match f with
    | Some lines => load_loop today_str (DictReader lines) []
    | None => Ok []
    end.

(** One pass of the loop of [_parse_ordered_items] up to the update of the
    counter: the name and the quantity read from [part]; [None] when the
    pass ends without an update (the [continue], or an empty name). *)
Definition decode_part (part : string) : result (option (string * Z)) :=
  let part := Str.strip part in
  match part with
  | EmptyString => Ok None
  | _ =>
      let* name_qty :=
        if Str.contains " x" part then
          match Str.rsplit1 " x" part with
          | [name; qty_str] =>
              let name := Str.strip name in
              let* qty := try_except_ValueError (Int.of_str (Str.strip qty_str)) (Ok 1) in
              Ok (name, qty)
          | _ => Raise (ValueError "not enough values to unpack (expected 2, got 1)")
          end
        else Ok (part, 1) in
      let '(name, qty) := name_qty in
      match name with
      | EmptyString => Ok None
      | _ => Ok (Some (name, qty))
      end
  end.

(** The body of the loop of [_parse_ordered_items] *)
Definition parse_part (counter : Counter) (part : string) : result Counter :=
  let* d := decode_part part in
  match d with
  | Some (name, qty) => Ok (counter_iadd counter name qty)
  | None => Ok counter
  end.

Fixpoint parse_parts (counter : Counter) (parts : list string) : result Counter :=
  match parts with
  | [] => Ok counter
  | part :: parts' =>
      let* counter' := parse_part counter part in
      parse_parts counter' parts'
  end.

(** [_parse_ordered_items]; the argument is a cell of a row, [None] for a
    missing cell. *)
Definition _parse_ordered_items (ordered_items_str : option string) : result Counter :=
  match ordered_items_str with
  | None | Some EmptyString => Ok []
  | Some s => parse_parts [] (Str.split ";" s)
  end.

(** [float(cell or 0)] *)
Definition float_of_cell (cell : option string) : result Float.float :=
  match cell with
  | None | Some EmptyString => Ok Float.zero
  | Some s => FloatParse.of_str s
  end.

Record tally : Type := mkTally {
  total_sales : Float.float;
  total_gst : Float.float;
  item_counter : Counter;
}.

(** The body of the loop of [compute_daily_summary] *)
Definition summary_step (t : tally) (row : dict_row) : result tally :=
  let* total_sales' :=
    try_except_ValueError
      (let* x := float_of_cell (row_get row "FinalTotal" "0") in
       Ok (Float.add (total_sales t) x))
      (Ok (total_sales t)) in
  let* total_gst' :=
    try_except_ValueError
      (let* x := float_of_cell (row_get row "GST" "0") in
       Ok (Float.add (total_gst t) x))
      (Ok (total_gst t)) in
  let* parsed := _parse_ordered_items (row_get row "OrderedItems" "") in
  Ok (mkTally total_sales' total_gst' (counter_update (item_counter t) parsed)).

Fixpoint summary_loop (t : tally) (rows : list dict_row) : result tally :=
  match rows with
  | [] => Ok t
  | row :: rows' =>
      let* t' := summary_step t row in
      summary_loop t' rows'
  end.

Definition summary : Type := Float.float * Float.float * Z * string.

(** [compute_daily_summary] *)
Definition compute_daily_summary (rows : list dict_row) : result summary :=
  match rows with
  | [] => Ok (Float.zero, Float.zero, 0, "N/A")
  | _ =>
      let* t := summary_loop (mkTally Float.zero Float.zero []) rows in
      let* most_sold_item :=
        match item_counter t with
        | [] => Ok "N/A"
        | _ =>
            match most_common_1 (item_counter t) with
            | (item, _) :: _ => Ok item
            | [] => Raise (IndexError "list index out of range")
            end
        end in
      Ok (Float.round2 (total_sales t), Float.round2 (total_gst t),
          Z.of_nat (length rows), most_sold_item)
  end.

(** What [show_daily_report] computes before it prints: the summary of
    today's rows of the sales file. *)
Definition daily_report (f : file) (today_str : string) : result summary :=
  let* rows := _load_todays_transactions f today_str in
  compute_daily_summary rows.

End admin.

(** * Vocabulary of the properties *)

(** ** Totals *)

(** The float that the decimal literal [m * 10^e] denotes, for [0 <= m] *)
Definition lit (m e : Z) : Float.float := Float.of_decimal false m e.

(** The relation that the specification states between the sum of the line
    totals and the returned triple: the subtotal is the rounded sum, the
    tax is computed from that rounded subtotal, the final total from both. *)
Definition totals_consistent (sum : Float.float) (t : totals) : Prop :=
  let '(subtotal, gst, final_total) := t in
  subtotal = Float.round2 sum
  /\ gst = Float.round2 (Float.mul subtotal GST_RATE)
  /\ final_total = Float.round2 (Float.add subtotal gst).

(** Three cups at 0.10 *)
Definition three_teas : list OrderItem := [mkOrderItem "Masala Tea" 3 (lit 1 (-1))].

(** Three samosas at 0.70 *)
Definition three_samosas : list OrderItem := [mkOrderItem "Samosa" 3 (lit 7 (-1))].

(** The order of the specification's example *)
Definition latte_and_vada_pav : list OrderItem :=
  [mkOrderItem "Latte" 2 (lit 120 0); mkOrderItem "Vada pav" 1 (lit 30 0)].

(** ** Texts and numerals *)

(** No character of [s] is white space in the sense of [ws]. *)
Definition no_ws (ws : ascii -> bool) (s : string) : Prop :=
  forall c, In c (list_ascii_of_string s) -> ws c = false.

(** A digit or the minus sign *)
Definition is_numeral_char (c : ascii) : bool := Str.isdigit c || Ascii.eqb c "-".

(** The value of a decimal numeral read from left to right, continuing
    from [acc] *)
Fixpoint uint_value (acc : Z) (d : Decimal.uint) : Z :=
  match d with
  | Decimal.Nil => acc
  | Decimal.D0 d => uint_value (10 * acc) d
  | Decimal.D1 d => uint_value (10 * acc + 1) d
  | Decimal.D2 d => uint_value (10 * acc + 2) d
  | Decimal.D3 d => uint_value (10 * acc + 3) d
  | Decimal.D4 d => uint_value (10 * acc + 4) d
  | Decimal.D5 d => uint_value (10 * acc + 5) d
  | Decimal.D6 d => uint_value (10 * acc + 6) d
  | Decimal.D7 d => uint_value (10 * acc + 7) d
  | Decimal.D8 d => uint_value (10 * acc + 8) d
  | Decimal.D9 d => uint_value (10 * acc + 9) d
  end.

(** ** The item-list text and its entries *)

(** One segment of the item-list text *)
Definition segment (n : string) (q : Z) : string := n +:+ " x" +:+ Int.to_str q.

(** The quantity that the lenient decoding reads from the text after the
    last [" x"]: its integer value, 1 when it is not an integer. *)
Definition lenient_quantity (qty_text : string) : Z :=
  match Int.of_str (Str.strip qty_text) with
  | Ok q => q
  | Raise _ => 1
  end.

(** The name and quantity that one segment of an item list contributes *)
Definition segment_entry (part : string) : option (string * Z) :=
  match admin.decode_part part with
  | Ok (Some entry) => Some entry
  | _ => None
  end.

(** The entries of an item-list text, segment by segment *)
Definition entries_of_text (s : string) : list (string * Z) :=
  omap segment_entry (Str.split ";" s).

(** The entries of the [OrderedItems] cell of a row *)
Definition cell_entries (cell : option string) : list (string * Z) :=
  match cell with
  | Some s => entries_of_text s
  | None => []
  end.

(** The entries of all rows of the day, in the order of the scan *)
Definition day_entries (rows : list dict_row) : list (string * Z) :=
  concat (map (fun row => cell_entries (row_get row "OrderedItems" "")) rows).

(** The name and quantity of each order item, in order *)
Definition item_entries (order_items : list OrderItem) : list (string * Z) :=
  map (fun item => (name item, quantity item)) order_items.

(** A name that survives the round trip through the item-list text: not
    empty, without white space at either end, without [";"]. The names of
    the menu are of this kind. *)
Definition well_formed_name (n : string) : Prop :=
  n <> "" /\ Str.strip n = n /\ Str.contains ";" n = false.

#[local] Instance well_formed_name_dec (n : string) : Decision (well_formed_name n).
Proof. unfold well_formed_name. apply _. Defined.

(** An order as the order-entry surfaces build it: every item is an item
    of the menu at its menu price. *)
Definition menu_order (order_items : list OrderItem) : Prop :=
  Forall (fun item => get_all_items !! name item = Some (unit_price item)) order_items.

(** ** Counters as mappings *)

(** Adding entries to a counter one after the other *)
Definition tally_up (c : Counter) (entries : list (string * Z)) : Counter :=
  fold_left (fun c '(n, q) => counter_iadd c n q) entries c.

(** The keys of a counter, in insertion order *)
Definition keys (c : Counter) : list string := map fst c.

(** The names of a list, each once, in the order in which they first occur *)
Fixpoint first_occurrences (l : list string) : list string :=
  match l with
  | [] => []
  | x :: l' => x :: filter (fun y => y <> x) (first_occurrences l')
  end.

(** The sum of the quantities that the entries give for the name [n] *)
Fixpoint quantity_of (n : string) (entries : list (string * Z)) : Z :=
  match entries with
  | [] => 0
  | (n', q) :: rest => (if String.eqb n' n then q else 0) + quantity_of n rest
  end.

(** [c] is the tally of [entries]: its keys are the names of the entries in
    the order of their first occurrence, and each name is mapped to the sum
    of its quantities. *)
Definition tallies (c : Counter) (entries : list (string * Z)) : Prop :=
  keys c = first_occurrences (map fst entries)
  /\ forall n, counter_get c n = quantity_of n entries.

(** [c] is exactly the mapping from each name of [entries] to the sum of
    its quantities. *)
Definition maps_names_to_sums (c : Counter) (entries : list (string * Z)) : Prop :=
  NoDup (keys c)
  /\ forall n q, (n, q) ∈ c <-> n ∈ map fst entries /\ q = quantity_of n entries.

(** Encoding the order items and decoding the text gives the mapping from
    each item name to the sum of its quantities. *)
Definition round_trip (order_items : list OrderItem) : Prop :=
  exists c : Counter,
    admin._parse_ordered_items (Some (format_order_items order_items)) = Ok c
    /\ maps_names_to_sums c (item_entries order_items).

(** ** The sales file and its rows *)

(** A row of the sales file, as [DictReader] yields it for a full line *)
Definition stored_row (customer items subtotal gst final_total payment datetime : string)
  : dict_row :=
  make_dict_row HEADER [customer; items; subtotal; gst; final_total; payment; datetime].

(** Three rows of one day; the tax cell of the second is not a number. *)
Definition three_rows : list dict_row :=
  [stored_row "Asha" "Latte x2; Vada pav x1" "270.00" "13.50" "283.50" "Cash" "2024-05-01 09:30:00";
   stored_row "Ravi" "Espresso x1" "95.24" "abc" "100.00" "UPI" "2024-05-01 10:05:12";
   stored_row "Mina" "Samosa x2" "47.62" "2.38" "50.00" "Card" "2024-05-01 17:45:59"].



(** A sales file with two records of 1 May 2024 and one record whose date
    is written in another way *)
Definition may_file : file :=
  Some [HEADER;
        ["Asha"; "Latte x2"; "240.00"; "12.00"; "252.00"; "Cash"; "2024-05-01 09:30:00"];
        ["Ravi"; "Samosa x1"; "25.00"; "1.25"; "26.25"; "UPI"; "01/05/2024 10:05"];
        ["Mina"; "Espresso x1"; "100.00"; "5.00"; "105.00"; "Card"; "2024-05-01 17:45:59"]].



(** * The order-entry surfaces ([cli_app.py], [gui.py])

    Further conventions.
    - [input()] takes the next of the lines that the user types; at the end
      of the input it raises [EOFError]. A function that reads lines
      returns an [outcome]: its value together with the lines not yet
      read, or the exception that leaves it.
    - What is printed or shown in a widget is not modelled (several of the
      texts contain the rupee sign, which is beyond code point 255); of a
      message box the kind and the title are kept.
    - The loop of [take_order_from_cli] is given as many rounds as there
      are lines, plus one; every round reads a line. *)

(** ** Further string methods *)

Module Unicode.

(** [c.isdigit()] for one character: below 256 the decimal digits and the
    superscripts two, three and one (178, 179, 185) *)
Definition isdigit_char (c : ascii) : bool :=
  let n := Str.code c in
  (((48 <=? n) && (n <=? 57)) || (n =? 178) || (n =? 179) || (n =? 185))%N.

(** [s.isdigit()]: every character is a digit and there is at least one. *)
Fixpoint all_digits (s : string) : bool :=
  match s with
  | EmptyString => true
  | String c s' => isdigit_char c && all_digits s'
  end.

Definition isdigit (s : string) : bool :=
  match s with
  | EmptyString => false
  | _ => all_digits s
  end.

(** [c.lower()]: below 256 the letters [A]..[Z] and 192..222 without the
    multiplication sign 215 have a lower-case form, 32 places further. *)
Definition lower_char (c : ascii) : ascii :=
  let n := Str.code c in
  if (((65 <=? n) && (n <=? 90)) || ((192 <=? n) && (n <=? 222) && negb (n =? 215)))%N
  then ascii_of_N (n + 32) else c.

Fixpoint lower (s : string) : string :=
  match s with
  | String c s' => String (lower_char c) (lower s')
  | EmptyString => EmptyString
  end.

End Unicode.

(** ** The console *)

Inductive console_exn : Type :=
| Builtin (e : exn)
| KeyError (key : string)
| EOFError.

Inductive outcome (A : Type) : Type :=
| Returned (a : A) (rest : list string)
| Uncaught (e : console_exn).
Arguments Returned {A} a rest.
Arguments Uncaught {A} e.

(** [t[i]] for a tuple: a negative index counts from the end. *)
Definition tuple_index (t : list string) (i : Z) : result string :=
  let n := Z.of_nat (length t) in
  let j := if i <? 0 then i + n else i in
  if (0 <=? j) && (j <? n)
  then match t !! Z.to_nat j with
       | Some x => Ok x
       | None => Raise (IndexError "tuple index out of range")
       end
  else Raise (IndexError "tuple index out of range").

Module cli_app.

Definition PAYMENT_METHODS : list string := ["Cash"; "Card"; "UPI"].

(** [{**DRINKS_MENU, **SNACKS_MENU}] *)
Definition all_items : gmap string Float.float := SNACKS_MENU ∪ DRINKS_MENU.

(** [_prompt_item_name]: the empty text stands for the end of the order. *)
Fixpoint _prompt_item_name (inputs : list string) : outcome string :=
  match inputs with
  | [] => Uncaught EOFError
  | line :: rest =>
      let name := Str.strip line in
      if String.eqb (Unicode.lower name) "done" then Returned "" rest
      else if bool_decide (is_Some (all_items !! name)) then Returned name rest
      else _prompt_item_name rest
  end.

(** [_prompt_quantity]: [int(qty_str)] stands before the [try]. *)
Fixpoint _prompt_quantity (inputs : list string) : outcome Z :=
  match inputs with
  | [] => Uncaught EOFError
  | line :: rest =>
      let qty_str := Str.strip line in
      if negb (Unicode.isdigit qty_str) then _prompt_quantity rest
      else
        match Int.of_str qty_str with
        | Raise e => Uncaught (Builtin e)
        | Ok qty =>
            match validate_quantity qty with
            | Ok q => Returned q rest
            | Raise (ValueError _) => _prompt_quantity rest
            | Raise e => Uncaught (Builtin e)
            end
        end
  end.

(** The loop of [take_order_from_cli], for at most [rounds] rounds *)
Fixpoint take_order_loop (rounds : nat) (order_items : list OrderItem)
    (inputs : list string) : option (outcome (list OrderItem)) :=
  match rounds with
  | O => None
  | S rounds' =>
      match _prompt_item_name inputs with
      | Uncaught e => Some (Uncaught e)
      | Returned EmptyString rest => Some (Returned order_items rest)
      | Returned item_name rest =>
          match _prompt_quantity rest with
          | Uncaught e => Some (Uncaught e)
          | Returned quantity rest' =>
              match all_items !! item_name with
              | None => Some (Uncaught (KeyError item_name))
              | Some unit_price =>
                  take_order_loop rounds'
                    (order_items ++ [mkOrderItem item_name quantity unit_price]) rest'
              end
          end
      end
  end.

Definition take_order_from_cli (inputs : list string) : option (outcome (list OrderItem)) :=
  take_order_loop (S (length inputs)) [] inputs.

(** [_prompt_payment_method] *)
Fixpoint _prompt_payment_method (inputs : list string) : outcome string :=
  match inputs with
  | [] => Uncaught EOFError
  | line :: rest =>
      let choice := Str.strip line in
      if bool_decide (choice ∈ ({["1"; "2"; "3"]} : gset string)) then
        match (let* n := Int.of_str choice in tuple_index PAYMENT_METHODS (n - 1)) with
        | Ok method => Returned method rest
        | Raise e => Uncaught (Builtin e)
        end
      else _prompt_payment_method rest
  end.


End cli_app.

(** ** The window ([gui.py]) *)

Module gui.

Definition PAYMENT_METHODS : list string := ["Cash"; "Card"; "UPI"].

(** The state of [PosGUI]: the order and the Tk variables. [all_items] is
    [get_all_items ()] throughout. *)
Record PosGUI : Type := mkPosGUI {
  order_items : list OrderItem;
  customer_name_var : string;
  quantity_var : string;
  selected_item_var : string;
  payment_method_var : string;
  subtotal_var : string;
  gst_var : string;
  total_var : string;
}.

(** [PosGUI.__init__] *)
Definition init : PosGUI :=
  mkPosGUI [] "" "1" "" (default "" (PAYMENT_METHODS !! 0%nat)) "0.00" "0.00" "0.00".

(** A message box: its kind and its title *)
Inductive dialog : Type :=
| showwarning (title : string)
| showerror (title : string)
| showinfo (title : string).

(** How a handler ends: it returns, perhaps after a message box, or an
    exception leaves it; either way with the state as it then is. *)
Inductive handled : Type :=
| Done (g : PosGUI) (shown : option dialog)
| Escaped (g : PosGUI) (e : exn).

Definition _on_item_selected (g : PosGUI) (item_name : string) : PosGUI :=
  mkPosGUI (order_items g) (customer_name_var g) (quantity_var g) item_name
    (payment_method_var g) (subtotal_var g) (gst_var g) (total_var g).

(** [_recalculate_totals] *)
Definition _recalculate_totals (g : PosGUI) : result PosGUI :=
  let* t := pos_logic.calculate_totals (order_items g) in
  let '(subtotal, gst_amount, final_total) := t in
  Ok (mkPosGUI (order_items g) (customer_name_var g) (quantity_var g)
        (selected_item_var g) (payment_method_var g)
        (Float.format_2f subtotal) (Float.format_2f gst_amount)
        (Float.format_2f final_total)).

(** [_on_add_to_order]: [int(qty_str)] stands inside the [try]. *)
Definition _on_add_to_order (g : PosGUI) : handled :=
  let item_name := Str.strip (selected_item_var g) in
  match item_name with
  | EmptyString => Done g (Some (showwarning "No item selected"))
  | _ =>
      let qty_str := Str.strip (quantity_var g) in
      if negb (Unicode.isdigit qty_str)
      then Done g (Some (showwarning "Invalid quantity"))
      else
        match (let* n := Int.of_str qty_str in validate_quantity n) with
        | Raise (ValueError _) => Done g (Some (showwarning "Invalid quantity"))
        | Raise e => Escaped g e
        | Ok qty =>
            match get_all_items !! item_name with
            | None => Done g (Some (showerror "Error"))
            | Some unit_price =>
                let g1 :=
                  mkPosGUI (order_items g ++ [mkOrderItem item_name qty unit_price])
                    (customer_name_var g) (quantity_var g) (selected_item_var g)
                    (payment_method_var g) (subtotal_var g) (gst_var g) (total_var g) in
                match _recalculate_totals g1 with
                | Ok g2 => Done g2 None
                | Raise e => Escaped g1 e
                end
            end
        end
  end.

(** [_on_generate_bill], with the sales file before and after *)
Definition _on_generate_bill (timestamp : string) (g : PosGUI) (f : file)
  : handled * file :=
  let customer_name := Str.strip (customer_name_var g) in
  match customer_name with
  | EmptyString => (Done g (Some (showwarning "Missing customer name")), f)
  | _ =>
      match order_items g with
      | [] => (Done g (Some (showwarning "Empty order")), f)
      | _ =>
          let payment_method := Str.strip (payment_method_var g) in
          match pos_logic.save_transaction customer_name (order_items g)
                  payment_method timestamp f with
          | (Raise (ValueError _), f') => (Done g (Some (showerror "Error")), f')
          | (Raise e, f') => (Escaped g e, f')
          | (Ok _, f') =>
              let g1 :=
                mkPosGUI [] (customer_name_var g) (quantity_var g) (selected_item_var g)
                  (payment_method_var g) (subtotal_var g) (gst_var g) (total_var g) in
              match _recalculate_totals g1 with
              | Raise e => (Escaped g1 e, f')
              | Ok g2 =>
                  (Done (mkPosGUI (order_items g2) (customer_name_var g2) "1"
                           (selected_item_var g2) (payment_method_var g2)
                           (subtotal_var g2) (gst_var g2) (total_var g2))
                     (Some (showinfo "Bill Generated")), f')
              end
          end
      end
  end.

(** What the user can do in the window: type into the two entries, click
    a menu button (there is one for each name of the two menus), choose
    from the read-only payment list, click the two other buttons. *)
Inductive event : Type :=
| type_customer_name (text : string)
| type_quantity (text : string)
| click_item (item_name : string)
| choose_payment (index : nat)
| click_add_to_order
| click_generate_bill (timestamp : string).

Definition state_of (h : handled) : PosGUI :=
  match h with
  | Done g _ => g
  | Escaped g _ => g
  end.

(** One event; an exception that leaves a handler is reported by Tk and
    the window goes on with the state as it is. An event that the window
    does not offer changes nothing. *)
Definition step (gf : PosGUI * file) (ev : event) : PosGUI * file :=
  let '(g, f) := gf in
  match ev with
  | type_customer_name text =>
      (mkPosGUI (order_items g) text (quantity_var g) (selected_item_var g)
         (payment_method_var g) (subtotal_var g) (gst_var g) (total_var g), f)
  | type_quantity text =>
      (mkPosGUI (order_items g) (customer_name_var g) text (selected_item_var g)
         (payment_method_var g) (subtotal_var g) (gst_var g) (total_var g), f)
  | click_item item_name =>
      if bool_decide (is_Some (DRINKS_MENU !! item_name))
         || bool_decide (is_Some (SNACKS_MENU !! item_name))
      then (_on_item_selected g item_name, f)
      else (g, f)
  | choose_payment index =>
      match PAYMENT_METHODS !! index with
      | Some method =>
          (mkPosGUI (order_items g) (customer_name_var g) (quantity_var g)
             (selected_item_var g) method (subtotal_var g) (gst_var g) (total_var g), f)
      | None => (g, f)
      end
  | click_add_to_order => (state_of (_on_add_to_order g), f)
  | click_generate_bill timestamp =>
      let '(h, f') := _on_generate_bill timestamp g f in (state_of h, f')
  end.

Definition run (events : list event) (f : file) : PosGUI * file :=
  fold_left step events (init, f).

End gui.

(** ** The console bot ([coffeebot.py], part 1) *)

Module coffeebot.

(** An entry of an order: item name, price, quantity *)
Definition order_line : Type := string * Z * Z.


(** The loop of [choose_items]; a round reads one, two or three lines. *)
Fixpoint choose_loop (menu_dict : gmap string (string * Z)) (order : list order_line)
    (inputs : list string) : outcome (list order_line) :=
  match inputs with
  | [] => Uncaught EOFError
  | line :: rest =>
      let choice := Str.strip line in
      match choice with
      | EmptyString => Returned order rest
      | _ =>
          if negb (bool_decide (is_Some (menu_dict !! choice)))
          then choose_loop menu_dict order rest
          else
            match rest with
            | [] => Uncaught EOFError
            | line2 :: rest2 =>
                let qty_str := Str.strip line2 in
                if negb (Unicode.isdigit qty_str)
                then choose_loop menu_dict order rest2
                else
                  match Int.of_str qty_str with
                  | Raise e => Uncaught (Builtin e)
                  | Ok qty =>
                      if qty <=? 0 then choose_loop menu_dict order rest2
                      else
                        match menu_dict !! choice with
                        | None => Uncaught (KeyError choice)
                        | Some (name, price) =>
                            let order' := order ++ [(name, price, qty)] in
                            match rest2 with
                            | [] => Uncaught EOFError
                            | line3 :: rest3 =>
                                let more := Unicode.lower (Str.strip line3) in
                                if negb (bool_decide (more ∈ ["yes"; "y"]))
                                then Returned order' rest3
                                else choose_loop menu_dict order' rest3
                            end
                        end
                  end
            end
      end
  end.

(** [choose_items] *)
Definition choose_items (menu_dict : gmap string (string * Z)) (inputs : list string)
  : outcome (list order_line) :=
  choose_loop menu_dict [] inputs.







End coffeebot.
(** * Vocabulary of the further properties *)

(** The rows of the sales file, none for a missing file *)
Definition file_rows (f : file) : list csv_row :=
  match f with
  | Some rows => rows
  | None => []
  end.

(** The row that [save_transaction] writes for an order and its totals *)
Definition transaction_row (customer_name : string) (order_items : list OrderItem)
    (t : totals) (payment_method timestamp : string) : csv_row :=
  let '(subtotal, gst_amount, final_total) := t in
  [Str.strip customer_name; format_order_items order_items;
   Float.format_2f subtotal; Float.format_2f gst_amount;
   Float.format_2f final_total; Str.strip payment_method; timestamp].

(** The quantity of every item can be converted to a float. *)
Definition quantities_convert (order_items : list OrderItem) : Prop :=
  Forall (fun item => exists x, Float.of_int (quantity item) = Ok x) order_items.

Definition is_OverflowError {A} (r : result A) : Prop :=
  match r with
  | Raise (OverflowError _) => True
  | _ => False
  end.



(** The characters of an amount written with two decimals *)
Definition is_amount_char (c : ascii) : bool :=
  Str.isdigit c || Ascii.eqb c "-" || Ascii.eqb c ".".


(** ** Lines typed at the console *)

(** The message of the [ValueError] that [int()] raises *)
Definition invalid_literal : exn := ValueError "invalid literal for int() with base 10".

(** A line that [_prompt_quantity] answers with a message and another
    prompt: not made of digits, or of value 0 *)
Definition quantity_line_rejected (line : string) : Prop :=
  Unicode.isdigit (Str.strip line) = false \/ Int.of_str (Str.strip line) = Ok 0.

(** A line that [_prompt_quantity] accepts as the quantity [q] *)
Definition quantity_line_accepted (line : string) (q : Z) : Prop :=
  Unicode.isdigit (Str.strip line) = true
  /\ Int.of_str (Str.strip line) = Ok q /\ 0 < q.

(** A line that passes [isdigit] and on which [int()] fails *)
Definition quantity_line_fatal (line : string) : Prop :=
  Unicode.isdigit (Str.strip line) = true
  /\ Int.of_str (Str.strip line) = Raise invalid_literal.

(** A superscript digit: a digit for [isdigit], not one for [int()] *)
Definition is_superscript_digit (c : ascii) : bool :=
  Unicode.isdigit_char c && negb (Str.isdigit c).

(** The line ends the order: it is [done] in any letter case. *)
Definition item_line_done (line : string) : Prop :=
  Unicode.lower (Str.strip line) = "done".

(** The line names an item of the menu. *)
Definition item_line_named (line : string) : Prop :=
  Unicode.lower (Str.strip line) <> "done"
  /\ is_Some (cli_app.all_items !! Str.strip line).

(** A line that [_prompt_item_name] answers with a message and another
    prompt *)
Definition item_line_rejected (line : string) : Prop :=
  Unicode.lower (Str.strip line) <> "done"
  /\ cli_app.all_items !! Str.strip line = None.

(** An item as the order-entry surfaces add it to an order: an item of
    the menu at its menu price, in a positive quantity *)
Definition entered_item (item : OrderItem) : Prop :=
  get_all_items !! name item = Some (unit_price item) /\ 0 < quantity item.


(** The line chooses the payment method [method]. *)
Definition payment_choice (line method : string) : Prop :=
  (Str.strip line = "1" /\ method = "Cash")
  \/ (Str.strip line = "2" /\ method = "Card")
  \/ (Str.strip line = "3" /\ method = "UPI").

(** The line is none of the three choices. *)
Definition payment_line_rejected (line : string) : Prop :=
  Str.strip line <> "1" /\ Str.strip line <> "2" /\ Str.strip line <> "3".

(** The sales file [f'] is the file [f] with the row of one sale added,
    after the header if [f] was absent or empty. *)
Definition billed (f f' : file) (row : csv_row) : Prop :=
  file_rows f' = (if exists_and_nonempty f then file_rows f else [HEADER]) ++ [row].

(** ** The window *)

(** The three total labels of the window show the totals [t]. *)
Definition displays (g : gui.PosGUI) (t : totals) : Prop :=
  let '(subtotal, gst_amount, final_total) := t in
  gui.subtotal_var g = Float.format_2f subtotal
  /\ gui.gst_var g = Float.format_2f gst_amount
  /\ gui.total_var g = Float.format_2f final_total.

(** The two states agree on what the user has entered or chosen. *)
Definition same_entries (g g' : gui.PosGUI) : Prop :=
  gui.customer_name_var g' = gui.customer_name_var g
  /\ gui.quantity_var g' = gui.quantity_var g
  /\ gui.selected_item_var g' = gui.selected_item_var g
  /\ gui.payment_method_var g' = gui.payment_method_var g.

(** Whenever the totals of the current order can be computed, the labels
    show them. *)
Definition labels_current (g : gui.PosGUI) : Prop :=
  match pos_logic.calculate_totals (gui.order_items g) with
  | Ok t => displays g t
  | Raise _ => True
  end.



(** The row has nothing under [key]: no such column, no cell, or an empty
    cell. *)
Definition cell_blank (row : dict_row) (key : string) : Prop :=
  row !! key = None \/ row !! key = Some None \/ row !! key = Some (Some "").

(** ** The console bot *)

(** An entry of an order taken from [menu_dict]: name and price are those
    of one of its items, the quantity is positive. *)
Definition menu_line (menu_dict : gmap string (string * Z)) (l : coffeebot.order_line)
  : Prop :=
  let '(item_name, price, qty) := l in
  0 < qty /\ exists key, menu_dict !! key = Some (item_name, price).

(** * Properties *)

(** ** Totals *)

Lemma bind_Ok {A B} (r : result A) (k : A -> result B) (b : B) :
  bind r k = Ok b -> exists a, r = Ok a /\ k a = Ok b.
Proof. destruct r as [a|e]; simpl; [eauto | discriminate]. Qed.

(** The copy in [pos_logic.py] keeps the relation on every input. *)
Lemma pos_logic_totals_consistent (order_items : list OrderItem) (t : totals) :
  pos_logic.calculate_totals order_items = Ok t ->
  exists sum, sum_line_totals Float.zero order_items = Ok sum /\ totals_consistent sum t.
Proof.
  unfold pos_logic.calculate_totals. intros H.
  apply bind_Ok in H as (sum & Hsum & Heq).
  exists sum. split; [exact Hsum|].
  injection Heq as <-. repeat split.
Qed.

(** Both copies return three zeros for the empty order. *)
Lemma calculate_totals_empty :
  billing_core.calculate_totals [] = Ok (Float.zero, Float.zero, Float.zero)
  /\ pos_logic.calculate_totals [] = Ok (Float.zero, Float.zero, Float.zero).
Proof. split; reflexivity. Qed.

(** C1 (fails for the copy in [billing_core.py]). For three items at 0.10
    the sum of the line totals is 0.30000000000000004; [billing_core]
    returns the subtotal 0.30 with the tax 0.02, whereas the tax of the
    returned subtotal, round(0.30 * 0.05, 2), is 0.01: the relation of the
    specification between subtotal and tax does not hold. *)
Theorem billing_core_tax_not_from_returned_subtotal :
  sum_line_totals Float.zero three_teas = Ok (lit 30000000000000004 (-17))
  /\ billing_core.calculate_totals three_teas = Ok (lit 30 (-2), lit 2 (-2), lit 32 (-2))
  /\ Float.round2 (Float.mul (lit 30 (-2)) GST_RATE) = lit 1 (-2)
  /\ ~ totals_consistent (lit 30000000000000004 (-17)) (lit 30 (-2), lit 2 (-2), lit 32 (-2)).
Proof.
  repeat split; try (vm_compute; reflexivity).
  intros (_ & Hgst & _). vm_compute in Hgst. discriminate Hgst.
Qed.

(** C8. The two copies of [calculate_totals] are not extensionally equal:
    for three items at 0.70 (sum 2.0999999999999996) the copy in
    [billing_core.py] returns (2.10, 0.10, 2.20) and the copy in
    [pos_logic.py] returns (2.10, 0.11, 2.21). *)
Theorem calculate_totals_copies_differ :
  exists order_items : list OrderItem,
    Forall (fun item => 1 <= quantity item /\ SFleb Float.zero (unit_price item) = true) order_items
    /\ billing_core.calculate_totals order_items = Ok (lit 210 (-2), lit 10 (-2), lit 220 (-2))
    /\ pos_logic.calculate_totals order_items = Ok (lit 210 (-2), lit 11 (-2), lit 221 (-2))
    /\ billing_core.calculate_totals order_items <> pos_logic.calculate_totals order_items.
Proof.
  exists three_samosas. split; [|split; [|split]].
  - constructor; [split; [simpl; lia | vm_compute; reflexivity] | constructor].
  - vm_compute. reflexivity.
  - vm_compute. reflexivity.
  - vm_compute. discriminate.
Qed.

(** ** Validation and the transaction store *)

Lemma validate_quantity_raises (q : Z) : is_ValueError (validate_quantity q) <-> q <= 0.
Proof.
  unfold validate_quantity. destruct (Z.leb_spec q 0); simpl; split; try lia; tauto.
Qed.

Lemma validate_quantity_returns (q : Z) : validate_quantity q = Ok q <-> 0 < q.
Proof.
  unfold validate_quantity. destruct (Z.leb_spec q 0); split; intros; try lia; try discriminate; reflexivity.
Qed.

(** Computing the totals can fail with [OverflowError] only. *)
Lemma line_total_no_ValueError (item : OrderItem) : ~ is_ValueError (line_total item).
Proof.
  unfold line_total, Float.of_int.
  destruct (binary_normalize _ _ _ _ _); simpl; tauto.
Qed.

Lemma sum_line_totals_no_ValueError (order_items : list OrderItem) (acc : Float.float) :
  ~ is_ValueError (sum_line_totals acc order_items).
Proof.
  revert acc. induction order_items as [|item rest IH]; intros acc; simpl; [tauto|].
  pose proof (line_total_no_ValueError item) as Hl.
  destruct (line_total item) as [t|e]; simpl in *; [apply IH | exact Hl].
Qed.

Lemma billing_core_totals_no_ValueError (order_items : list OrderItem) :
  ~ is_ValueError (billing_core.calculate_totals order_items).
Proof.
  unfold billing_core.calculate_totals.
  pose proof (sum_line_totals_no_ValueError order_items Float.zero) as Hs.
  destruct (sum_line_totals _ _); simpl in *; tauto.
Qed.

Lemma pos_logic_totals_no_ValueError (order_items : list OrderItem) :
  ~ is_ValueError (pos_logic.calculate_totals order_items).
Proof.
  unfold pos_logic.calculate_totals.
  pose proof (sum_line_totals_no_ValueError order_items Float.zero) as Hs.
  destruct (sum_line_totals _ _); simpl in *; tauto.
Qed.

Section SaveTransactionFacts.

Variable calculate_totals : list OrderItem -> result totals.
Variables (customer_name : string) (order_items : list OrderItem).
Variables (payment_method timestamp : string) (f : file).

(** Both checks come before the totals and before the file is touched. *)
Lemma save_rejects_invalid :
  Str.strip customer_name = "" \/ order_items = [] ->
  is_ValueError
    (fst (save_transaction_with calculate_totals customer_name order_items
            payment_method timestamp f))
  /\ snd (save_transaction_with calculate_totals customer_name order_items
            payment_method timestamp f) = f.
Proof.
  unfold save_transaction_with.
  intros [Hn | Hi].
  - rewrite Hn. simpl. tauto.
  - subst order_items. destruct (Str.strip customer_name); simpl; tauto.
Qed.

Lemma save_ValueError_only_invalid :
  (forall items, ~ is_ValueError (calculate_totals items)) ->
  is_ValueError
    (fst (save_transaction_with calculate_totals customer_name order_items
            payment_method timestamp f)) ->
  Str.strip customer_name = "" \/ order_items = [].
Proof.
  unfold save_transaction_with. intros Hcalc.
  destruct (Str.strip customer_name) as [|c n]; [tauto|].
  destruct order_items as [|i l]; [tauto|].
  specialize (Hcalc (i :: l)).
  destruct (calculate_totals (i :: l)) as [[[s g] t]|e]; simpl in *; tauto.
Qed.

(** A call that raises, whatever the exception, leaves the file as it was. *)
Lemma save_raise_leaves_file :
  raises
    (fst (save_transaction_with calculate_totals customer_name order_items
            payment_method timestamp f)) ->
  snd (save_transaction_with calculate_totals customer_name order_items
         payment_method timestamp f) = f.
Proof.
  unfold save_transaction_with.
  destruct (Str.strip customer_name) as [|c n]; [reflexivity|].
  destruct order_items as [|i l]; [reflexivity|].
  destruct (calculate_totals (i :: l)) as [[[s g] t]|e]; simpl; tauto.
Qed.

End SaveTransactionFacts.

(** C6. [validate_quantity q] raises the validation error exactly when
    [q <= 0] and otherwise returns [q]; [save_transaction] (either copy)
    raises it exactly when the customer name trims to empty or the order is
    empty. *)
Theorem validation_raises_iff (q : Z) (customer_name : string)
    (order_items : list OrderItem) (payment_method timestamp : string) (f : file) :
  (is_ValueError (validate_quantity q) <-> q <= 0)
  /\ (validate_quantity q = Ok q <-> 0 < q)
  /\ (is_ValueError
        (fst (billing_core.save_transaction customer_name order_items payment_method timestamp f))
      <-> Str.strip customer_name = "" \/ order_items = [])
  /\ (is_ValueError
        (fst (pos_logic.save_transaction customer_name order_items payment_method timestamp f))
      <-> Str.strip customer_name = "" \/ order_items = []).
Proof.
  split; [apply validate_quantity_raises|].
  split; [apply validate_quantity_returns|].
  split; split.
  - apply save_ValueError_only_invalid, billing_core_totals_no_ValueError.
  - intros H. apply (save_rejects_invalid billing_core.calculate_totals), H.
  - apply save_ValueError_only_invalid, pos_logic_totals_no_ValueError.
  - intros H. apply (save_rejects_invalid pos_logic.calculate_totals), H.
Qed.

(** C10. When [save_transaction] fails with the validation error, the
    sales file is what it was before the call: nothing is created, no
    header is written, no row is appended (for either copy). *)
Theorem save_transaction_failure_leaves_store (customer_name : string)
    (order_items : list OrderItem) (payment_method timestamp : string) (f : file) :
  is_ValueError
    (fst (billing_core.save_transaction customer_name order_items payment_method timestamp f)) ->
  snd (billing_core.save_transaction customer_name order_items payment_method timestamp f) = f
  /\ snd (pos_logic.save_transaction customer_name order_items payment_method timestamp f) = f.
Proof.
  intros H.
  apply save_ValueError_only_invalid in H; [|apply billing_core_totals_no_ValueError].
  split.
  - apply (save_rejects_invalid billing_core.calculate_totals), H.
  - apply (save_rejects_invalid pos_logic.calculate_totals), H.
Qed.

Lemma save_transaction_failure_leaves_store_witness :
  snd (billing_core.save_transaction "   " three_teas "Cash" "2024-05-01 09:30:00" None) = None
  /\ snd (pos_logic.save_transaction "   " three_teas "Cash" "2024-05-01 09:30:00" None) = None.
Proof.
  apply (save_transaction_failure_leaves_store "   " three_teas "Cash" "2024-05-01 09:30:00" None).
  vm_compute. exact I.
Defined.

(** ** Facts about the string operations *)

Lemma sapp_nil (s : string) : "" +:+ s = s.
Proof. reflexivity. Qed.

Lemma sapp_cons (c : ascii) (s t : string) : String c s +:+ t = String c (s +:+ t).
Proof. reflexivity. Qed.

Lemma startswith_app (s sep : string) :
  Str.startswith s sep = true -> s = sep +:+ Str.drop (String.length sep) s.
Proof.
  revert s. induction sep as [|a sep IH]; intros s H; [reflexivity|].
  destruct s as [|c s]; simpl in H; [discriminate|].
  apply andb_true_iff in H as [Hc Hs]. apply Ascii.eqb_eq in Hc as ->.
  rewrite sapp_cons. simpl. f_equal. apply IH, Hs.
Qed.

Lemma rfind_split_cons (sep : string) (c : ascii) (s : string) :
  Str.rfind_split sep (String c s) =
  match Str.rfind_split sep s with
  | Some (h, t) => Some (String c h, t)
  | None =>
      if Str.startswith (String c s) sep
      then Some ("", Str.drop (String.length sep) (String c s))
      else None
  end.
Proof. reflexivity. Qed.

Lemma contains_cons (sep : string) (c : ascii) (s : string) :
  Str.contains sep (String c s) = Str.startswith (String c s) sep || Str.contains sep s.
Proof. reflexivity. Qed.

Lemma rfind_split_None (sep s : string) :
  Str.contains sep s = false -> Str.rfind_split sep s = None.
Proof.
  induction s as [|c s IH]; [reflexivity|].
  rewrite contains_cons, rfind_split_cons. intros H.
  apply orb_false_elim in H as [Hp Hc].
  rewrite (IH Hc), Hp. reflexivity.
Qed.

Lemma rfind_split_Some (a : ascii) (sep s : string) :
  Str.contains (String a sep) s = true ->
  exists h t, Str.rfind_split (String a sep) s = Some (h, t).
Proof.
  induction s as [|c s IH]; [discriminate|].
  rewrite contains_cons, rfind_split_cons. intros H.
  destruct (Str.rfind_split (String a sep) s) as [[h t]|] eqn:E; [eauto|].
  destruct (Str.contains (String a sep) s) eqn:Ec.
  - destruct (IH eq_refl) as (h & t & Habs). discriminate.
  - rewrite orb_false_r in H. rewrite H. eauto.
Qed.

Lemma rfind_split_app (sep s h t : string) :
  Str.rfind_split sep s = Some (h, t) -> s = h +:+ sep +:+ t.
Proof.
  revert h. induction s as [|c s IH]; intros h; [discriminate|].
  rewrite rfind_split_cons.
  destruct (Str.rfind_split sep s) as [[h' t']|].
  - intros [= <- <-]. rewrite sapp_cons. f_equal. apply IH. reflexivity.
  - destruct (Str.startswith (String c s) sep) eqn:Hp; [|discriminate].
    intros [= <- <-]. rewrite sapp_nil. apply startswith_app, Hp.
Qed.

(** [" x"] is split off at its last occurrence: the text after it holds no
    further [" x"]. *)
Lemma rfind_split_last (h t : string) :
  Str.contains " x" t = false ->
  Str.rfind_split " x" (h +:+ " x" +:+ t) = Some (h, t).
Proof.
  intros Ht. induction h as [|c h IH].
  - rewrite sapp_nil.
    change (" x" +:+ t) with (String " " (String "x" t)).
    rewrite rfind_split_cons, rfind_split_None; [reflexivity|].
    rewrite contains_cons, Ht. reflexivity.
  - rewrite sapp_cons, rfind_split_cons, IH. reflexivity.
Qed.

(** *** Stripping *)

Section Strip.

Variable ws : ascii -> bool.

Lemma rstrip_cons (c : ascii) (s : string) :
  Str.rstrip_by ws (String c s) =
  match Str.rstrip_by ws s with
  | EmptyString => if ws c then EmptyString else String c EmptyString
  | r => String c r
  end.
Proof. reflexivity. Qed.

(** What [lstrip] returns is empty or starts with a character that is not
    white space. *)
Lemma lstrip_head (s : string) :
  match Str.lstrip_by ws s with
  | EmptyString => True
  | String c _ => ws c = false
  end.
Proof.
  induction s as [|c s IH]; simpl; [exact I|].
  destruct (ws c) eqn:E; [exact IH | exact E].
Qed.

Lemma strip_head (s : string) (c : ascii) (r : string) :
  Str.strip_by ws s = String c r -> ws c = false.
Proof.
  unfold Str.strip_by. intros H.
  pose proof (lstrip_head (Str.rstrip_by ws s)) as Hh. rewrite H in Hh. exact Hh.
Qed.

Lemma rstrip_nonempty (c : ascii) (s : string) :
  ws c = false -> exists r, Str.rstrip_by ws (String c s) = String c r.
Proof.
  intros Hc. rewrite rstrip_cons, Hc.
  destruct (Str.rstrip_by ws s); eauto.
Qed.

(** A text that starts with a character that is not white space does not
    strip to the empty string. *)
Lemma strip_nonempty (c : ascii) (s : string) :
  ws c = false -> exists r, Str.strip_by ws (String c s) = String c r.
Proof.
  intros Hc. unfold Str.strip_by.
  destruct (rstrip_nonempty c s Hc) as [r ->]. simpl. rewrite Hc. eauto.
Qed.

Lemma strip_cons_ws (c : ascii) (s : string) :
  ws c = true -> Str.strip_by ws (String c s) = Str.strip_by ws s.
Proof.
  intros Hc. unfold Str.strip_by. rewrite rstrip_cons, Hc.
  destruct (Str.rstrip_by ws s); simpl; [reflexivity|]. rewrite Hc. reflexivity.
Qed.

Lemma rstrip_app_fixed (s t : string) :
  t <> "" -> Str.rstrip_by ws t = t -> Str.rstrip_by ws (s +:+ t) = s +:+ t.
Proof.
  intros Hne Ht. induction s as [|c s IH]; [exact Ht|].
  rewrite sapp_cons, rstrip_cons, IH.
  destruct (s +:+ t) eqn:E; [|reflexivity].
  destruct s; [|discriminate]. rewrite sapp_nil in E. contradiction.
Qed.

Lemma rstrip_no_ws (s : string) : no_ws ws s -> Str.rstrip_by ws s = s.
Proof.
  unfold no_ws. induction s as [|c s IH]; intros H; [reflexivity|].
  rewrite rstrip_cons, IH.
  - destruct s; [|reflexivity]. rewrite (H c); [reflexivity | left; reflexivity].
  - intros d Hd. apply H. right. exact Hd.
Qed.

(** A text without white space at either end is a fixed point of [strip]. *)
Lemma strip_fixed (c : ascii) (s : string) :
  ws c = false -> Str.rstrip_by ws (String c s) = String c s ->
  Str.strip_by ws (String c s) = String c s.
Proof.
  intros Hc Hr. unfold Str.strip_by. rewrite Hr. simpl. rewrite Hc. reflexivity.
Qed.

End Strip.

Lemma strip_empty_all_ws (ws : ascii -> bool) (s : string) :
  Str.strip_by ws s = "" -> forall c, In c (list_ascii_of_string s) -> ws c = true.
Proof.
  unfold Str.strip_by. intros H.
  assert (Hl : forall r, Str.lstrip_by ws r = "" ->
                         forall c, In c (list_ascii_of_string r) -> ws c = true).
  { induction r as [|a r IH]; simpl; [tauto|].
    destruct (ws a) eqn:E; [|discriminate].
    intros Hr c [<-|Hc]; [exact E | apply IH; assumption]. }
  assert (Hr : forall u, Str.rstrip_by ws u = "" \/
                         exists c, In c (list_ascii_of_string (Str.rstrip_by ws u)) /\ ws c = false).
  { induction u as [|a u IH]; [left; reflexivity|]. rewrite rstrip_cons.
    destruct (Str.rstrip_by ws u) as [|b r] eqn:E.
    - destruct (ws a) eqn:Ea; [left; reflexivity|].
      right. exists a. split; [left; reflexivity | exact Ea].
    - right. destruct IH as [IH|(c & Hc & Hw)]; [discriminate|].
      exists c. split; [right; exact Hc | exact Hw]. }
  assert (Ha : forall u, Str.rstrip_by ws u = "" ->
                         forall c, In c (list_ascii_of_string u) -> ws c = true).
  { induction u as [|a u IH]; [simpl; tauto|]. rewrite rstrip_cons.
    destruct (Str.rstrip_by ws u) eqn:E; [|discriminate].
    destruct (ws a) eqn:Ea; [|discriminate].
    intros _ c Hc. simpl in Hc.
    destruct Hc as [<-|Hc]; [exact Ea | apply IH; [reflexivity | exact Hc]]. }
  destruct (Hr s) as [E|(c & Hc & Hw)].
  - apply Ha, E.
  - rewrite (Hl _ H c Hc) in Hw. discriminate.
Qed.

Lemma split_no_sep (sep : ascii) (s : string) :
  (forall c, In c (list_ascii_of_string s) -> c <> sep) -> Str.split sep s = [s].
Proof.
  induction s as [|c s IH]; intros H; [reflexivity|]. simpl.
  destruct (Ascii.eqb_spec c sep) as [->|Hne].
  - exfalso. apply (H sep); [left|]; reflexivity.
  - rewrite IH; [reflexivity|]. intros d Hd. apply H. right. exact Hd.
Qed.

(** ** The item-list codec: decoding *)

Lemma int_of_str_cases (s : string) :
  (exists q, Int.of_str s = Ok q) \/ is_ValueError (Int.of_str s).
Proof.
  unfold Int.of_str.
  destruct (Str.strip_by Int.isspace s) as [|c body].
  - destruct (Int.unsigned_value ""); simpl; eauto.
  - destruct c as [[] [] [] [] [] [] [] []];
      match goal with
      | |- context [Int.unsigned_value ?b] => destruct (Int.unsigned_value b)
      end; simpl; eauto.
Qed.

Lemma try_int_lenient (qty_str : string) :
  try_except_ValueError (Int.of_str (Str.strip qty_str)) (Ok 1)
  = Ok (lenient_quantity qty_str).
Proof.
  unfold lenient_quantity.
  destruct (int_of_str_cases (Str.strip qty_str)) as [[q ->]|H]; [reflexivity|].
  destruct (Int.of_str (Str.strip qty_str)) as [q|[]]; simpl in *; tauto.
Qed.

Lemma decode_part_blank (part : string) :
  Str.strip part = "" -> admin.decode_part part = Ok None.
Proof. unfold admin.decode_part. intros ->. reflexivity. Qed.

Lemma decode_part_plain (part : string) :
  Str.strip part <> "" -> Str.contains " x" (Str.strip part) = false ->
  admin.decode_part part = Ok (Some (Str.strip part, 1)).
Proof.
  unfold admin.decode_part. intros Hne Hc.
  destruct (Str.strip part) as [|c r] eqn:E; [contradiction|].
  rewrite Hc. reflexivity.
Qed.

Lemma decode_part_split (part h t : string) :
  Str.rfind_split " x" (Str.strip part) = Some (h, t) ->
  admin.decode_part part = Ok (Some (Str.strip h, lenient_quantity t))
  /\ Str.strip h <> "".
Proof.
  intros Hs.
  assert (Hc : Str.contains " x" (Str.strip part) = true).
  { destruct (Str.contains " x" (Str.strip part)) eqn:E; [reflexivity|].
    rewrite (rfind_split_None _ _ E) in Hs. discriminate. }
  pose proof (rfind_split_app _ _ _ _ Hs) as Happ.
  destruct (Str.strip part) as [|c r] eqn:E; [discriminate|].
  pose proof (strip_head _ _ _ _ E) as Hhead.
  destruct h as [|c' h'].
  { rewrite sapp_nil in Happ. change (" x" +:+ t) with (String " " (String "x" t)) in Happ.
    injection Happ as -> _. discriminate. }
  rewrite sapp_cons in Happ. injection Happ as <- _.
  destruct (strip_nonempty Str.isspace c h' Hhead) as [r' Hr'].
  fold (Str.strip (String c h')) in Hr'.
  unfold admin.decode_part. rewrite E, Hc.
  unfold Str.rsplit1. rewrite Hs, try_int_lenient, Hr'.
  split; [reflexivity | discriminate].
Qed.

(** Decoding a segment never raises, and only a segment that is blank
    after trimming yields no entry. *)
Lemma decode_part_total (part : string) :
  (Str.strip part = "" /\ admin.decode_part part = Ok None)
  \/ (exists n q, Str.strip part <> "" /\ n <> "" /\ admin.decode_part part = Ok (Some (n, q))).
Proof.
  destruct (Str.strip part) as [|c r] eqn:E.
  - left. split; [reflexivity | apply decode_part_blank, E].
  - right. destruct (Str.contains " x" (String c r)) eqn:Hc.
    + destruct (rfind_split_Some _ _ _ Hc) as (h & t & Hs).
      rewrite <- E in Hs. destruct (decode_part_split _ _ _ Hs) as [Hd Hn].
      exists (Str.strip h), (lenient_quantity t). repeat split; [discriminate | exact Hn | exact Hd].
    + exists (String c r), 1. repeat split; try discriminate.
      rewrite <- E. apply decode_part_plain; rewrite E; [discriminate | exact Hc].
Qed.

Lemma segment_entry_name (part n : string) (q : Z) :
  segment_entry part = Some (n, q) -> n <> "".
Proof.
  unfold segment_entry.
  destruct (decode_part_total part) as [[_ ->]|(n' & q' & _ & Hn & ->)]; [discriminate|].
  intros [= <- <-]. exact Hn.
Qed.

Lemma parse_parts_tally (parts : list string) (c : Counter) :
  admin.parse_parts c parts = Ok (tally_up c (omap segment_entry parts)).
Proof.
  revert c. induction parts as [|part parts IH]; intros c; [reflexivity|].
  simpl. unfold admin.parse_part, segment_entry.
  destruct (decode_part_total part) as [[_ ->]|(n & q & _ & _ & ->)]; simpl; apply IH.
Qed.

(** [_parse_ordered_items] returns the tally of the entries of the text. *)
Lemma parse_ordered_items_tally (s : string) :
  admin._parse_ordered_items (Some s) = Ok (tally_up [] (entries_of_text s)).
Proof.
  unfold admin._parse_ordered_items, entries_of_text.
  destruct s as [|c s]; [reflexivity|]. apply parse_parts_tally.
Qed.

Lemma parse_ordered_items_blank (s : string) :
  Str.strip s = "" -> admin._parse_ordered_items (Some s) = Ok [].
Proof.
  intros H. rewrite parse_ordered_items_tally. unfold entries_of_text.
  rewrite split_no_sep.
  - simpl. unfold segment_entry. rewrite (decode_part_blank _ H). reflexivity.
  - intros c Hc ->. pose proof (strip_empty_all_ws _ _ H _ Hc) as Hw. discriminate.
Qed.

(** C4. Decoding is lenient: [_parse_ordered_items] returns a counter for
    every text (it never raises), namely the tally of the entries of its
    segments; a trimmed segment [name x qty_text], split at the last
    [" x"], yields the trimmed name with the integer value of [qty_text],
    or with 1 when [qty_text] is not an integer; a trimmed segment without
    [" x"] yields itself with quantity 1; a text of white space only
    decodes to the empty mapping; and the three examples of the
    specification hold. *)
Theorem parse_ordered_items_lenient :
  (forall s : string,
     admin._parse_ordered_items (Some s) = Ok (tally_up [] (entries_of_text s)))
  /\ (forall part name qty_text : string,
        Str.strip part = name +:+ " x" +:+ qty_text ->
        Str.contains " x" qty_text = false ->
        exists q : Z,
          admin.decode_part part = Ok (Some (Str.strip name, q))
          /\ match Int.of_str (Str.strip qty_text) with
             | Ok v => q = v
             | Raise _ => q = 1
             end)
  /\ (forall part : string,
        Str.strip part <> "" ->
        Str.contains " x" (Str.strip part) = false ->
        admin.decode_part part = Ok (Some (Str.strip part, 1)))
  /\ (forall s : string, Str.strip s = "" -> admin._parse_ordered_items (Some s) = Ok [])
  /\ admin._parse_ordered_items (Some "") = Ok []
  /\ admin._parse_ordered_items (Some "Samosa") = Ok [("Samosa", 1)]
  /\ admin._parse_ordered_items (Some "Samosa xabc") = Ok [("Samosa", 1)].
Proof.
  split; [exact parse_ordered_items_tally|].
  split.
  { intros part name qty_text Hs Hq.
    pose proof (rfind_split_last name qty_text Hq) as Hr. rewrite <- Hs in Hr.
    destruct (decode_part_split _ _ _ Hr) as [Hd _].
    exists (lenient_quantity qty_text). split; [exact Hd|].
    unfold lenient_quantity. destruct (Int.of_str (Str.strip qty_text)); reflexivity. }
  split; [exact decode_part_plain|].
  split; [exact parse_ordered_items_blank|].
  repeat split; vm_compute; reflexivity.
Qed.

Lemma dict_set_keys_nonempty (c : Counter) (k : string) (v : Z) :
  k <> "" -> Forall (fun kv => fst kv <> "") c ->
  Forall (fun kv => fst kv <> "") (dict_set c k v).
Proof.
  intros Hk. induction c as [|[k' v'] c IH]; intros Hc; simpl.
  - constructor; [exact Hk | constructor].
  - inversion Hc as [|? ? Hh Ht]; subst.
    destruct (String.eqb k' k); constructor; auto.
Qed.

Lemma tally_up_keys_nonempty (entries : list (string * Z)) (c : Counter) :
  Forall (fun e => fst e <> "") entries -> Forall (fun kv => fst kv <> "") c ->
  Forall (fun kv => fst kv <> "") (tally_up c entries).
Proof.
  revert c. induction entries as [|[n q] entries IH]; intros c He Hc; [exact Hc|].
  inversion He as [|? ? Hn Ht]; subst. simpl. apply IH; [exact Ht|].
  apply dict_set_keys_nonempty; assumption.
Qed.

Lemma entries_names_nonempty (parts : list string) :
  Forall (fun e => fst e <> "") (omap segment_entry parts).
Proof.
  induction parts as [|part parts IH]; simpl; [constructor|].
  destruct (segment_entry part) as [[n q]|] eqn:E; [|exact IH].
  constructor; [apply (segment_entry_name _ _ _ E) | exact IH].
Qed.

(** C9 (as stated it fails: the segment [" x2"] is not dropped). *)
Lemma quantity_suffix_segment_is_tallied :
  admin._parse_ordered_items (Some " x2") = Ok [("x2", 1)]
  /\ admin._parse_ordered_items (Some " x2") <> Ok [].
Proof. split; [vm_compute; reflexivity | vm_compute; discriminate]. Qed.

(** C9, amended. For every text, every key of the counter that
    [_parse_ordered_items] returns is a non-empty string; the segments that
    contribute nothing are exactly those that are empty after trimming; the
    segment [" x2"], which trims to ["x2"], holds no [" x"] and is tallied
    under the name ["x2"] with quantity 1. *)
Theorem parse_ordered_items_keys_nonempty :
  (forall s : string,
     exists c : Counter,
       admin._parse_ordered_items (Some s) = Ok c
       /\ Forall (fun kv => fst kv <> "") c)
  /\ (forall part : string, admin.decode_part part = Ok None <-> Str.strip part = "")
  /\ (forall part : string,
        Str.strip part <> "" ->
        exists (n : string) (q : Z), n <> "" /\ admin.decode_part part = Ok (Some (n, q)))
  /\ admin.decode_part " x2" = Ok (Some ("x2", 1)).
Proof.
  split.
  { intros s. eexists. split; [apply parse_ordered_items_tally|].
    apply tally_up_keys_nonempty; [apply entries_names_nonempty | constructor]. }
  split.
  { intros part. split.
    - intros H. destruct (decode_part_total part) as [[Hs _]|(n & q & _ & _ & Hd)]; [exact Hs|].
      rewrite Hd in H. discriminate.
    - apply decode_part_blank. }
  split.
  { intros part Hne.
    destruct (decode_part_total part) as [[Hs _]|(n & q & _ & Hn & Hd)]; [contradiction|].
    exists n, q. split; assumption. }
  vm_compute. reflexivity.
Qed.

(** ** The daily report: aggregation *)

Lemma float_of_str_cases (s : string) :
  (exists x, FloatParse.of_str s = Ok x) \/ is_ValueError (FloatParse.of_str s).
Proof.
  unfold FloatParse.of_str.
  destruct (FloatParse.remove_underscores _ _) as [t|]; [|right; exact I].
  destruct (match FloatParse.take_decimal t with
            | Some r => Some r
            | None => FloatParse.take_inf_or_nan t
            end) as [[x [|c r]]|]; simpl; eauto.
Qed.

Lemma float_of_cell_cases (cell : option string) :
  (exists x, admin.float_of_cell cell = Ok x) \/ is_ValueError (admin.float_of_cell cell).
Proof.
  destruct cell as [[|c s]|]; simpl; eauto. apply float_of_str_cases.
Qed.

(** [total += float(cell or 0)] under [try ... except ValueError: pass] *)
Lemma guarded_add (total : Float.float) (cell : option string) :
  exists total',
    try_except_ValueError
      (let* x := admin.float_of_cell cell in Ok (Float.add total x)) (Ok total)
    = Ok total'
    /\ (raises (admin.float_of_cell cell) -> total' = total)
    /\ (forall x, admin.float_of_cell cell = Ok x -> total' = Float.add total x).
Proof.
  destruct (float_of_cell_cases cell) as [[x Hx]|H].
  - rewrite Hx. simpl. eexists. split; [reflexivity|].
    split; [intros [] | intros y [= <-]; reflexivity].
  - destruct (admin.float_of_cell cell) as [x|[]]; simpl in *; try tauto.
    eexists. split; [reflexivity|]. split; [reflexivity | discriminate].
Qed.

Lemma parse_cell_tally (cell : option string) :
  admin._parse_ordered_items cell = Ok (tally_up [] (cell_entries cell)).
Proof.
  destruct cell as [s|]; [apply parse_ordered_items_tally | reflexivity].
Qed.

Lemma summary_step_total (t : admin.tally) (row : dict_row) :
  exists t',
    admin.summary_step t row = Ok t'
    /\ (raises (admin.float_of_cell (row_get row "FinalTotal" "0")) ->
        admin.total_sales t' = admin.total_sales t)
    /\ (raises (admin.float_of_cell (row_get row "GST" "0")) ->
        admin.total_gst t' = admin.total_gst t)
    /\ admin.item_counter t' =
       counter_update (admin.item_counter t)
         (tally_up [] (cell_entries (row_get row "OrderedItems" ""))).
Proof.
  unfold admin.summary_step.
  destruct (guarded_add (admin.total_sales t) (row_get row "FinalTotal" "0"))
    as (s' & -> & Hs & _).
  destruct (guarded_add (admin.total_gst t) (row_get row "GST" "0"))
    as (g' & -> & Hg & _).
  rewrite parse_cell_tally. simpl. eexists. split; [reflexivity|].
  simpl. auto.
Qed.

Lemma summary_loop_total (rows : list dict_row) (t : admin.tally) :
  exists t', admin.summary_loop t rows = Ok t'.
Proof.
  revert t. induction rows as [|row rows IH]; intros t; simpl; [eauto|].
  destruct (summary_step_total t row) as (t' & -> & _). simpl. apply IH.
Qed.

(** C5. [compute_daily_summary] returns a summary for every list of rows
    (it never raises); a [FinalTotal] or [GST] cell that is not a number
    leaves the running total of its column as it was; and for three rows
    with the final totals 283.50, 100.00 and 50.00, one of which has the
    tax cell ["abc"], the total of the sales is 433.50 (the tax total is
    that of the two other rows, 15.88). *)
Theorem compute_daily_summary_tolerates_bad_cells :
  (forall rows : list dict_row, exists out, admin.compute_daily_summary rows = Ok out)
  /\ (forall (t : admin.tally) (row : dict_row),
        exists t' : admin.tally,
          admin.summary_step t row = Ok t'
          /\ (raises (admin.float_of_cell (row_get row "FinalTotal" "0")) ->
              admin.total_sales t' = admin.total_sales t)
          /\ (raises (admin.float_of_cell (row_get row "GST" "0")) ->
              admin.total_gst t' = admin.total_gst t))
  /\ raises (admin.float_of_cell (Some "abc"))
  /\ admin.compute_daily_summary three_rows
     = Ok (lit 43350 (-2), lit 1588 (-2), 3, "Latte").
Proof.
  split.
  { intros [|row rows]; [simpl; eauto|].
    unfold admin.compute_daily_summary.
    destruct (summary_loop_total (row :: rows) (admin.mkTally Float.zero Float.zero []))
      as (t & ->).
    simpl. destruct (admin.item_counter t) as [|item c]; simpl; [eauto|].
    destruct (max_by_count item c); simpl; eauto. }
  split.
  { intros t row. destruct (summary_step_total t row) as (t' & H1 & H2 & H3 & _). eauto. }
  split; [exact I|].
  vm_compute. reflexivity.
Qed.

(** ** The daily report: today's rows *)









(** The report of the example file counts its two records of the day. *)
Lemma may_file_report :
  admin.daily_report may_file "2024-05-01" = Ok (lit 357 0, lit 17 0, 2, "Latte")
  /\ admin.daily_report None "2024-05-01" = Ok (Float.zero, Float.zero, 0, "N/A")
  /\ admin.daily_report (Some []) "2024-05-01" = Ok (Float.zero, Float.zero, 0, "N/A").
Proof. repeat split; vm_compute; reflexivity. Qed.

(** ** Integers and their decimal text *)

Lemma uint_value_pos (d : Decimal.uint) (acc : positive) :
  uint_value (Zpos acc) d = Zpos (Pos.of_uint_acc d acc).
Proof.
  revert acc. induction d; intros acc; simpl; [reflexivity|..];
    rewrite <- IHd; f_equal; lia.
Qed.

Lemma uint_value_of_uint (d : Decimal.uint) : uint_value 0 d = Z.of_uint d.
Proof.
  unfold Z.of_uint. induction d; simpl; try reflexivity; try exact IHd;
    apply (uint_value_pos d).
Qed.

Lemma digits_value_uint (d : Decimal.uint) (acc : Z) :
  Int.digits_value acc (NilEmpty.string_of_uint d) = Some (uint_value acc d).
Proof.
  revert acc. induction d; intros acc; simpl; [reflexivity|..];
    rewrite IHd; do 2 f_equal; unfold Str.digit_val; simpl; lia.
Qed.

Lemma string_of_uint_chars (d : Decimal.uint) (c : ascii) :
  In c (list_ascii_of_string (NilEmpty.string_of_uint d)) -> Str.isdigit c = true.
Proof.
  induction d; simpl; [tauto|..]; (intros [<-|H]; [reflexivity | exact (IHd H)]).
Qed.

Lemma nilzero_uint_chars (d : Decimal.uint) (c : ascii) :
  In c (list_ascii_of_string (NilZero.string_of_uint d)) -> Str.isdigit c = true.
Proof.
  unfold NilZero.string_of_uint. destruct d; try apply string_of_uint_chars.
  simpl. intros [<-|[]]. reflexivity.
Qed.

Lemma nilzero_uint_head (d : Decimal.uint) :
  exists c s, NilZero.string_of_uint d = String c s /\ Str.isdigit c = true.
Proof. destruct d; simpl; eauto. Qed.

Lemma unsigned_value_uint (d : Decimal.uint) :
  Int.unsigned_value (NilZero.string_of_uint d) = Some (Z.of_uint d).
Proof.
  unfold Int.unsigned_value.
  assert (Hh : Int.starts_with_digit (NilZero.string_of_uint d) = true).
  { destruct (nilzero_uint_head d) as (c & s & -> & Hc). exact Hc. }
  rewrite Hh, <- uint_value_of_uint.
  unfold NilZero.string_of_uint. destruct d; try apply digits_value_uint. reflexivity.
Qed.

Lemma to_str_chars (z : Z) (c : ascii) :
  In c (list_ascii_of_string (Int.to_str z)) -> is_numeral_char c = true.
Proof.
  unfold Int.to_str, NilZero.string_of_int, is_numeral_char.
  destruct (Z.to_int z) as [d|d]; simpl.
  - intros H. rewrite (nilzero_uint_chars d c H). reflexivity.
  - intros [<-|H]; [reflexivity|]. rewrite (nilzero_uint_chars d c H). reflexivity.
Qed.

Lemma to_str_nonempty (z : Z) : Int.to_str z <> "".
Proof.
  unfold Int.to_str, NilZero.string_of_int.
  destruct (Z.to_int z) as [d|d]; [|discriminate].
  destruct (nilzero_uint_head d) as (c & s & -> & _). discriminate.
Qed.

Lemma numeral_char_facts (c : ascii) :
  is_numeral_char c = true ->
  Str.isspace c = false /\ Int.isspace c = false /\ c <> " "%char /\ c <> ";"%char.
Proof.
  destruct c as [[] [] [] [] [] [] [] []]; vm_compute; intros H;
    try discriminate H; repeat split; discriminate.
Qed.

Lemma lstrip_no_ws (ws : ascii -> bool) (s : string) :
  no_ws ws s -> Str.lstrip_by ws s = s.
Proof.
  destruct s as [|c s]; [reflexivity|]. intros H. simpl.
  rewrite (H c); [reflexivity | left; reflexivity].
Qed.

Lemma strip_no_ws (ws : ascii -> bool) (s : string) :
  no_ws ws s -> Str.strip_by ws s = s.
Proof.
  intros H. unfold Str.strip_by. rewrite (rstrip_no_ws ws s H). apply lstrip_no_ws, H.
Qed.

Lemma of_str_digit_head (c : ascii) (s : string) :
  Str.isdigit c = true ->
  Str.strip_by Int.isspace (String c s) = String c s ->
  Int.of_str (String c s)
  = match Int.unsigned_value (String c s) with
    | Some v => Ok v
    | None => Raise (ValueError "invalid literal for int() with base 10")
    end.
Proof.
  intros Hc Hs. unfold Int.of_str. rewrite Hs.
  destruct c as [[] [] [] [] [] [] [] []]; try discriminate Hc; reflexivity.
Qed.

(** Reading back the decimal text of an integer gives the integer. *)
Lemma of_str_to_str (z : Z) : Int.of_str (Int.to_str z) = Ok z.
Proof.
  assert (Hs : Str.strip_by Int.isspace (Int.to_str z) = Int.to_str z).
  { apply strip_no_ws. intros c Hc. apply numeral_char_facts, (to_str_chars z c Hc). }
  rewrite <- (DecimalZ.of_to z) at 2.
  revert Hs. unfold Int.to_str, NilZero.string_of_int.
  destruct (Z.to_int z) as [d|d]; intros Hs.
  - destruct (nilzero_uint_head d) as (c & s & E & Hc). rewrite E in Hs |- *.
    rewrite (of_str_digit_head c s Hc Hs), <- E, unsigned_value_uint. reflexivity.
  - unfold Int.of_str. rewrite Hs, unsigned_value_uint. reflexivity.
Qed.

Lemma lenient_quantity_to_str (z : Z) : lenient_quantity (Int.to_str z) = z.
Proof.
  unfold lenient_quantity, Str.strip. rewrite strip_no_ws.
  - rewrite of_str_to_str. reflexivity.
  - intros c Hc. apply numeral_char_facts, (to_str_chars z c Hc).
Qed.

(** ** Counters as tallies *)

Lemma filter_all {A} (P : A -> Prop) `{forall x, Decision (P x)} (l : list A) :
  (forall x, x ∈ l -> P x) -> filter P l = l.
Proof.
  induction l as [|a l IH]; intros Hall; [reflexivity|].
  rewrite filter_cons_True by (apply Hall; left).
  f_equal. apply IH. intros x Hx. apply Hall. right. exact Hx.
Qed.

Lemma elem_of_first_occurrences (l : list string) (x : string) :
  x ∈ first_occurrences l <-> x ∈ l.
Proof.
  induction l as [|a l IH]; simpl; [reflexivity|].
  rewrite !elem_of_cons, list_elem_of_filter, IH.
  destruct (decide (x = a)); tauto.
Qed.

Lemma NoDup_first_occurrences (l : list string) : NoDup (first_occurrences l).
Proof.
  induction l as [|a l IH]; simpl; [constructor|].
  apply NoDup_cons. split; [|apply NoDup_filter, IH].
  rewrite list_elem_of_filter. tauto.
Qed.

Lemma first_occurrences_NoDup_id (l : list string) :
  NoDup l -> first_occurrences l = l.
Proof.
  induction l as [|a l IH]; intros Hnd; [reflexivity|].
  apply NoDup_cons in Hnd as [Ha Hl]. simpl. rewrite (IH Hl). f_equal.
  apply filter_all. intros x Hx ->. contradiction.
Qed.

Lemma first_occurrences_app (l1 l2 : list string) :
  first_occurrences (l1 ++ l2)
  = first_occurrences l1 ++ filter (fun y => y ∉ l1) (first_occurrences l2).
Proof.
  induction l1 as [|a l1 IH]; simpl.
  - symmetry. apply filter_all. intros x _. apply not_elem_of_nil.
  - f_equal. rewrite IH, filter_app. f_equal.
    rewrite list_filter_filter. apply list_filter_iff.
    intros x. rewrite not_elem_of_cons. reflexivity.
Qed.

Lemma counter_get_dict_set (c : Counter) (k : string) (v : Z) (k' : string) :
  counter_get (dict_set c k v) k' = if String.eqb k k' then v else counter_get c k'.
Proof.
  induction c as [|[k0 v0] c IH]; simpl; [reflexivity|].
  destruct (String.eqb_spec k0 k) as [->|Hne]; simpl.
  - destruct (String.eqb k k'); reflexivity.
  - rewrite IH. destruct (String.eqb_spec k0 k') as [->|]; [|reflexivity].
    destruct (String.eqb_spec k k') as [->|]; [contradiction | reflexivity].
Qed.

Lemma counter_get_absent (c : Counter) (k : string) :
  k ∉ keys c -> counter_get c k = 0.
Proof.
  induction c as [|[k0 v0] c IH]; simpl; [reflexivity|].
  rewrite not_elem_of_cons. intros [Hne Hk].
  destruct (String.eqb_spec k0 k) as [->|]; [contradiction | apply IH, Hk].
Qed.

Lemma counter_get_present (c : Counter) (k : string) (v : Z) :
  NoDup (keys c) -> (k, v) ∈ c -> counter_get c k = v.
Proof.
  induction c as [|[k0 v0] c IH]; simpl; intros Hnd Hin.
  - apply elem_of_nil in Hin. contradiction.
  - apply NoDup_cons in Hnd as [Hk0 Hnd]. apply elem_of_cons in Hin as [[= -> ->]|Hin].
    + rewrite String.eqb_refl. reflexivity.
    + destruct (String.eqb_spec k0 k) as [->|]; [|apply IH; assumption].
      exfalso. apply Hk0. unfold keys. apply list_elem_of_fmap. exists (k, v). auto.
Qed.

Lemma keys_dict_set (c : Counter) (k : string) (v : Z) :
  keys (dict_set c k v) = if decide (k ∈ keys c) then keys c else keys c ++ [k].
Proof.
  induction c as [|[k0 v0] c IH]; simpl.
  - destruct (decide (k ∈ [])) as [H|]; [|reflexivity]. apply elem_of_nil in H. contradiction.
  - destruct (String.eqb_spec k0 k) as [->|Hne]; simpl.
    + destruct (decide (k ∈ k :: keys c)) as [|Hn]; [reflexivity|].
      exfalso. apply Hn. left.
    + fold (keys c). fold (keys (dict_set c k v)). rewrite IH.
      destruct (decide (k ∈ keys c)) as [Hin|Hnin];
        destruct (decide (k ∈ k0 :: keys c)) as [Hin'|Hnin']; try reflexivity.
      * exfalso. apply Hnin'. right. exact Hin.
      * apply elem_of_cons in Hin' as [->|]; contradiction.
Qed.

(** The keys after a run of assignments [acc[k] = f(acc, k, v)] *)
Lemma keys_fold_dict_set (f : Counter -> string -> Z -> Z)
    (entries : list (string * Z)) (c : Counter) :
  keys (fold_left (fun acc '(k, v) => dict_set acc k (f acc k v)) entries c)
  = keys c ++ filter (fun y => y ∉ keys c) (first_occurrences (map fst entries)).
Proof.
  revert c. induction entries as [|[n q] entries IH]; intros c; simpl.
  - rewrite app_nil_r. reflexivity.
  - rewrite IH, keys_dict_set. destruct (decide (n ∈ keys c)) as [Hin|Hnin].
    + f_equal. rewrite filter_cons_False by (intros Hn; exact (Hn Hin)).
      rewrite list_filter_filter. apply list_filter_iff.
      intros x. split; [|intros [Hx _]; exact Hx].
      intros Hx. split; [exact Hx|]. intros ->. contradiction.
    + rewrite <- app_assoc. f_equal. simpl. rewrite filter_cons_True by exact Hnin.
      f_equal. rewrite list_filter_filter. apply list_filter_iff.
      intros x. rewrite elem_of_app, list_elem_of_singleton. unfold not. intuition.
Qed.

Lemma quantity_of_app (n : string) (l1 l2 : list (string * Z)) :
  quantity_of n (l1 ++ l2) = quantity_of n l1 + quantity_of n l2.
Proof.
  induction l1 as [|[n' q] l1 IH]; simpl; [reflexivity|]. rewrite IH. lia.
Qed.

Lemma tally_up_get (entries : list (string * Z)) (c : Counter) (n : string) :
  counter_get (tally_up c entries) n = counter_get c n + quantity_of n entries.
Proof.
  revert c. induction entries as [|[n' q] entries IH]; intros c; simpl; [lia|].
  rewrite IH. unfold counter_iadd. rewrite counter_get_dict_set.
  destruct (String.eqb_spec n' n) as [->|]; lia.
Qed.

Lemma tally_up_tallies (entries : list (string * Z)) : tallies (tally_up [] entries) entries.
Proof.
  split.
  - unfold tally_up, counter_iadd.
    rewrite (keys_fold_dict_set (fun acc k v => counter_get acc k + v)). simpl.
    apply filter_all. intros x _. apply not_elem_of_nil.
  - intros n. rewrite tally_up_get. reflexivity.
Qed.

Lemma tallies_NoDup (c : Counter) (entries : list (string * Z)) :
  tallies c entries -> NoDup (keys c).
Proof. intros [-> _]. apply NoDup_first_occurrences. Qed.

Lemma update_get (other c : Counter) (n : string) :
  NoDup (keys other) ->
  counter_get
    (fold_left (fun acc '(elem, count) => dict_set acc elem (count + counter_get acc elem))
       other c) n
  = counter_get c n + counter_get other n.
Proof.
  revert c. induction other as [|[k v] other IH]; intros c Hnd; simpl; [lia|].
  apply NoDup_cons in Hnd as [Hk Hnd]. rewrite (IH _ Hnd), counter_get_dict_set.
  destruct (String.eqb_spec k n) as [->|]; [|reflexivity].
  rewrite (counter_get_absent other n Hk). lia.
Qed.

(** [update] with the tally of further entries gives the tally of all. *)
Lemma counter_update_tallies (c : Counter) (l1 l2 : list (string * Z)) :
  tallies c l1 -> tallies (counter_update c (tally_up [] l2)) (l1 ++ l2).
Proof.
  intros [Hk Hg]. destruct (tally_up_tallies l2) as [Hk2 Hg2].
  destruct c as [|item c].
  - destruct l1 as [|e l1]; [|discriminate Hk]. apply tally_up_tallies.
  - unfold counter_update. split.
    + rewrite (keys_fold_dict_set (fun acc k v => v + counter_get acc k)).
      fold (keys (tally_up [] l2)).
      rewrite Hk2, (first_occurrences_NoDup_id _ (NoDup_first_occurrences _)).
      rewrite Hk, map_app, first_occurrences_app. f_equal.
      apply list_filter_iff. intros x. rewrite elem_of_first_occurrences. reflexivity.
    + intros n. rewrite update_get.
      * rewrite Hg, Hg2, quantity_of_app. reflexivity.
      * rewrite Hk2. apply NoDup_first_occurrences.
Qed.

Lemma summary_loop_tallies (rows : list dict_row) (t : admin.tally)
    (entries : list (string * Z)) :
  tallies (admin.item_counter t) entries ->
  exists t', admin.summary_loop t rows = Ok t'
             /\ tallies (admin.item_counter t') (entries ++ day_entries rows).
Proof.
  revert t entries. induction rows as [|row rows IH]; intros t entries Ht; simpl.
  - exists t. unfold day_entries. simpl. rewrite app_nil_r. auto.
  - destruct (summary_step_total t row) as (t1 & -> & _ & _ & Hc). simpl.
    destruct (IH t1 (entries ++ cell_entries (row_get row "OrderedItems" ""))) as (t' & Hl & Ht').
    { rewrite Hc. apply counter_update_tallies, Ht. }
    exists t'. split; [exact Hl|].
    unfold day_entries in *. simpl. rewrite app_assoc. exact Ht'.
Qed.

(** [max] returns the first of the items with the greatest count. *)
Lemma max_by_count_first (items pre mid : list (string * Z)) (best : string * Z) :
  (forall x, x ∈ pre -> snd x < snd best) ->
  (forall x, x ∈ mid -> snd x <= snd best) ->
  exists before after,
    pre ++ best :: mid ++ items = before ++ max_by_count best items :: after
    /\ (forall x, x ∈ before -> snd x < snd (max_by_count best items))
    /\ (forall x, x ∈ after -> snd x <= snd (max_by_count best items)).
Proof.
  revert pre mid best. induction items as [|item items IH]; intros pre mid best Hpre Hmid; simpl.
  - exists pre, mid. rewrite app_nil_r. auto.
  - destruct (Z.ltb_spec (snd best) (snd item)) as [Hlt|Hge].
    + destruct (IH (pre ++ best :: mid) [] item) as (before & after & Heq & Hb & Ha).
      * intros x Hx. apply elem_of_app in Hx as [Hx|Hx]; [specialize (Hpre x Hx); lia|].
        apply elem_of_cons in Hx as [->|Hx]; [lia | specialize (Hmid x Hx); lia].
      * intros x Hx. apply elem_of_nil in Hx. contradiction.
      * exists before, after. split; [|auto].
        rewrite <- Heq. simpl. rewrite <- app_assoc. reflexivity.
    + destruct (IH pre (mid ++ [item]) best) as (before & after & Heq & Hb & Ha).
      * exact Hpre.
      * intros x Hx. apply elem_of_app in Hx as [Hx|Hx]; [apply Hmid, Hx|].
        apply list_elem_of_singleton in Hx as ->. lia.
      * exists before, after. split; [|auto].
        rewrite <- Heq, <- app_assoc. reflexivity.
Qed.

(** C3. The most sold item of the summary is the name with the highest
    summed quantity over the entries of all rows, and among several names
    with that highest sum the one encountered first in the scan: every name
    encountered for the first time before it has a strictly lower sum, and
    no name encountered after it has a higher one. When no item was
    tallied it is ["N/A"]. *)
Theorem top_item_first_highest (rows : list dict_row) :
  exists (total_sales total_gst : Float.float) (count : Z) (top_item : string),
    admin.compute_daily_summary rows = Ok (total_sales, total_gst, count, top_item)
    /\ let entries := day_entries rows in
       let names := first_occurrences (map fst entries) in
       (names = [] /\ top_item = "N/A")
       \/ exists before after : list string,
            names = before ++ top_item :: after
            /\ (forall n, n ∈ before -> quantity_of n entries < quantity_of top_item entries)
            /\ (forall n, n ∈ after -> quantity_of n entries <= quantity_of top_item entries).
Proof.
  destruct rows as [|row rows].
  { exists Float.zero, Float.zero, 0, "N/A". split; [reflexivity|]. left. auto. }
  unfold admin.compute_daily_summary.
  destruct (summary_loop_tallies (row :: rows) (admin.mkTally Float.zero Float.zero []) [])
    as (t & -> & Ht).
  { split; [reflexivity | intros n; reflexivity]. }
  rewrite app_nil_l in Ht. simpl bind.
  pose proof (tallies_NoDup _ _ Ht) as Hnd. destruct Ht as [Hk Hg].
  destruct (admin.item_counter t) as [|item c] eqn:Ec.
  { do 4 eexists. split; [reflexivity|]. left. simpl. rewrite <- Hk. auto. }
  unfold most_common_1.
  destruct (max_by_count_first c [] [] item) as (before & after & Heq & Hb & Ha).
  { intros x Hx. apply elem_of_nil in Hx. contradiction. }
  { intros x Hx. apply elem_of_nil in Hx. contradiction. }
  simpl in Heq. destruct (max_by_count item c) as [top v] eqn:Em. simpl in Hb, Ha.
  do 4 eexists. split; [reflexivity|]. right.
  exists (keys before), (keys after). simpl.
  assert (Hval : forall n vn, (n, vn) ∈ item :: c -> quantity_of n (day_entries (row :: rows)) = vn).
  { intros n vn Hin. rewrite <- Hg. apply counter_get_present; assumption. }
  assert (Htop : quantity_of top (day_entries (row :: rows)) = v).
  { apply Hval. rewrite Heq. apply elem_of_app. right. left. }
  split.
  { rewrite <- Hk, Heq. unfold keys. rewrite map_app. reflexivity. }
  split.
  - intros n Hn. apply list_elem_of_fmap in Hn as ([n' vn] & -> & Hin). simpl.
    rewrite (Hval n' vn), Htop; [exact (Hb _ Hin)|].
    rewrite Heq. apply elem_of_app. left. exact Hin.
  - intros n Hn. apply list_elem_of_fmap in Hn as ([n' vn] & -> & Hin). simpl.
    rewrite (Hval n' vn), Htop; [exact (Ha _ Hin)|].
    rewrite Heq. apply elem_of_app. right. right. exact Hin.
Qed.

(** The report breaks a tie by the first encounter, not by who reaches the
    highest sum first: below, ["Vada pav"] is at 3 after the first row and
    ["Latte"] only after the second. *)
Lemma tie_goes_to_first_encountered :
  admin.compute_daily_summary
    [stored_row "Asha" "Latte x1; Vada pav x3" "210.00" "10.50" "220.50" "Cash" "2024-05-01 09:30:00";
     stored_row "Ravi" "Latte x2" "240.00" "12.00" "252.00" "UPI" "2024-05-01 10:05:12"]
  = Ok (lit 4725 (-1), lit 225 (-1), 2, "Latte").
Proof. vm_compute. reflexivity. Qed.

(** ** The item-list codec: round trip *)

Lemma tallies_maps (c : Counter) (entries : list (string * Z)) :
  tallies c entries -> maps_names_to_sums c entries.
Proof.
  intros Ht. pose proof (tallies_NoDup _ _ Ht) as Hnd. destruct Ht as [Hk Hg].
  split; [exact Hnd|]. intros n q. split.
  - intros Hin. split.
    + apply elem_of_first_occurrences. rewrite <- Hk. unfold keys.
      apply list_elem_of_fmap. exists (n, q). auto.
    + rewrite <- Hg. symmetry. apply counter_get_present; assumption.
  - intros [Hn ->]. apply elem_of_first_occurrences in Hn. rewrite <- Hk in Hn.
    unfold keys in Hn. apply list_elem_of_fmap in Hn as ([n' q'] & -> & Hin). simpl.
    rewrite <- Hg, (counter_get_present c n' q' Hnd Hin). exact Hin.
Qed.

Lemma chars_app (s t : string) :
  list_ascii_of_string (s +:+ t) = list_ascii_of_string s ++ list_ascii_of_string t.
Proof. induction s as [|c s IH]; [reflexivity|]. rewrite sapp_cons. simpl. rewrite IH. reflexivity. Qed.

Lemma startswith_cons (b : ascii) (s : string) (a : ascii) (p : string) :
  Str.startswith (String b s) (String a p) = Ascii.eqb a b && Str.startswith s p.
Proof. reflexivity. Qed.

Lemma contains_char (a : ascii) (s : string) (c : ascii) :
  Str.contains (String a "") s = false -> In c (list_ascii_of_string s) -> c <> a.
Proof.
  induction s as [|b s IH]; [intros _ []|].
  rewrite contains_cons, startswith_cons. intros H.
  apply orb_false_elim in H as [Hb Hs]. apply andb_false_iff in Hb as [Hb|Hb]; [|discriminate].
  intros [<-|Hc]; [|apply IH; assumption].
  intros ->. rewrite Ascii.eqb_refl in Hb. discriminate.
Qed.

Lemma no_space_no_x_suffix (s : string) :
  (forall c, In c (list_ascii_of_string s) -> c <> " "%char) -> Str.contains " x" s = false.
Proof.
  induction s as [|b s IH]; intros H; [reflexivity|].
  rewrite contains_cons, IH by (intros c Hc; apply H; right; exact Hc).
  rewrite startswith_cons. destruct (Ascii.eqb_spec " " b) as [<-|]; [|reflexivity].
  exfalso. apply (H " "%char); [left|]; reflexivity.
Qed.

Lemma split_app_sep (sep : ascii) (p rest : string) :
  (forall c, In c (list_ascii_of_string p) -> c <> sep) ->
  Str.split sep (p +:+ String sep rest) = p :: Str.split sep rest.
Proof.
  induction p as [|c p IH]; intros H.
  - rewrite sapp_nil. simpl. rewrite Ascii.eqb_refl. reflexivity.
  - rewrite sapp_cons. simpl.
    destruct (Ascii.eqb_spec c sep) as [->|_].
    + exfalso. apply (H sep); [left|]; reflexivity.
    + rewrite IH; [reflexivity|]. intros d Hd. apply H. right. exact Hd.
Qed.

(** Splitting the joined text gives the parts back, all but the first with
    the space of the separator in front. *)
Lemma split_join (p : string) (ps : list string) :
  (forall q, In q (p :: ps) -> forall c, In c (list_ascii_of_string q) -> c <> ";"%char) ->
  Str.split ";" (Str.join "; " (p :: ps)) = p :: map (String " ") ps.
Proof.
  revert p. induction ps as [|q ps IH]; intros p H.
  - simpl. apply split_no_sep. apply H. left. reflexivity.
  - change (Str.join "; " (p :: q :: ps)) with (p +:+ String ";" (String " " (Str.join "; " (q :: ps)))).
    rewrite split_app_sep by (apply H; left; reflexivity).
    f_equal. change (Str.split ";" (String " " (Str.join "; " (q :: ps))))
      with (match Str.split ";" (Str.join "; " (q :: ps)) with
            | p0 :: ps0 => String " " p0 :: ps0
            | [] => [String " " ""]
            end).
    rewrite IH by (intros r Hr; apply H; right; exact Hr). reflexivity.
Qed.

Lemma segment_entry_strip (p1 p2 : string) :
  Str.strip p1 = Str.strip p2 -> segment_entry p1 = segment_entry p2.
Proof. unfold segment_entry, admin.decode_part. intros ->. reflexivity. Qed.

Section Segments.

Variables (n : string) (q : Z).
Hypothesis Hn : well_formed_name n.

Lemma segment_chars (c : ascii) :
  In c (list_ascii_of_string (segment n q)) -> c <> ";"%char.
Proof.
  destruct Hn as (_ & _ & Hsemi).
  unfold segment. rewrite !chars_app, !in_app_iff. intros [H|[H|H]].
  - apply (contains_char _ _ _ Hsemi H).
  - simpl in H. destruct H as [<-|[<-|[]]]; discriminate.
  - apply numeral_char_facts, (to_str_chars q c H).
Qed.

Lemma segment_strip : Str.strip (segment n q) = segment n q.
Proof.
  destruct Hn as (Hne & Hstrip & _).
  destruct n as [|c n'] eqn:E; [contradiction|].
  pose proof (strip_head _ _ _ _ Hstrip) as Hc.
  unfold segment. rewrite sapp_cons. apply strip_fixed; [exact Hc|].
  rewrite <- sapp_cons. apply rstrip_app_fixed.
  - change (" x" +:+ Int.to_str q) with (String " " (String "x" (Int.to_str q))). discriminate.
  - apply rstrip_app_fixed; [apply to_str_nonempty|].
    apply rstrip_no_ws. intros d Hd. apply numeral_char_facts, (to_str_chars q d Hd).
Qed.

Lemma segment_decodes : segment_entry (segment n q) = Some (n, q).
Proof.
  assert (Hq : Str.contains " x" (Int.to_str q) = false).
  { apply no_space_no_x_suffix. intros c Hc.
    apply numeral_char_facts, (to_str_chars q c Hc). }
  pose proof (rfind_split_last n (Int.to_str q) Hq) as Hr.
  fold (segment n q) in Hr. rewrite <- segment_strip in Hr.
  destruct (decode_part_split _ _ _ Hr) as [Hd _].
  unfold segment_entry. rewrite Hd, lenient_quantity_to_str.
  destruct Hn as (_ & -> & _). reflexivity.
Qed.

Lemma spaced_segment_decodes : segment_entry (String " " (segment n q)) = Some (n, q).
Proof.
  rewrite <- segment_decodes. apply segment_entry_strip.
  apply strip_cons_ws. reflexivity.
Qed.

End Segments.

Lemma omap_cons_Some {A B} (f : A -> option B) (x : A) (l : list A) (y : B) :
  f x = Some y -> omap f (x :: l) = y :: omap f l.
Proof. intros H. simpl. rewrite H. reflexivity. Qed.

Lemma spaced_segments_decode (order_items : list OrderItem) :
  Forall (fun item => well_formed_name (name item)) order_items ->
  omap segment_entry
    (map (String " ") (map (fun item => segment (name item) (quantity item)) order_items))
  = item_entries order_items.
Proof.
  induction 1 as [|item rest Hitem _ IH]; [reflexivity|].
  rewrite !map_cons, (omap_cons_Some _ _ _ _ (spaced_segment_decodes _ _ Hitem)), IH.
  reflexivity.
Qed.

(** For well-formed names the text that [format_order_items] produces has
    the order items as its entries. *)
Lemma format_entries (order_items : list OrderItem) :
  Forall (fun item => well_formed_name (name item)) order_items ->
  entries_of_text (format_order_items order_items) = item_entries order_items.
Proof.
  intros H. destruct H as [|item rest Hitem Hrest]; [reflexivity|].
  unfold entries_of_text, format_order_items.
  change (map (fun item0 => name item0 +:+ " x" +:+ Int.to_str (quantity item0)) (item :: rest))
    with (segment (name item) (quantity item)
          :: map (fun item0 => segment (name item0) (quantity item0)) rest).
  rewrite split_join.
  - rewrite (omap_cons_Some _ _ _ _ (segment_decodes _ _ Hitem)).
    rewrite (spaced_segments_decode _ Hrest). reflexivity.
  - intros p Hp c Hc.
    assert (Hin : exists it, well_formed_name (name it) /\ p = segment (name it) (quantity it)).
    { destruct Hp as [<-|Hp]; [eauto|].
      apply in_map_iff in Hp as (it & <- & Hit).
      rewrite Forall_forall in Hrest. exists it. split; [|reflexivity].
      apply Hrest. apply list_elem_of_In. exact Hit. }
    destruct Hin as (it & Hwf & ->). exact (segment_chars _ _ Hwf c Hc).
Qed.


Lemma well_formed_names_round_trip (order_items : list OrderItem) :
  Forall (fun item => well_formed_name (name item)) order_items ->
  round_trip order_items.
Proof.
  intros H. exists (tally_up [] (item_entries order_items)). split.
  - rewrite parse_ordered_items_tally, (format_entries _ H). reflexivity.
  - apply tallies_maps, tally_up_tallies.
Qed.



(** The example of the specification, evaluated *)
Lemma latte_and_vada_pav_round_trip :
  format_order_items latte_and_vada_pav = "Latte x2; Vada pav x1"
  /\ admin._parse_ordered_items (Some "Latte x2; Vada pav x1")
     = Ok [("Latte", 2); ("Vada pav", 1)].
Proof. split; vm_compute; reflexivity. Qed.

(** The names of the menu are well formed, so every order that the
    order-entry surfaces build from the menu makes the round trip. *)
Lemma menu_names_well_formed :
  map_Forall (fun n _ => well_formed_name n) get_all_items.
Proof. apply (bool_decide_unpack _). vm_compute. exact I. Qed.

Lemma menu_order_round_trip (order_items : list OrderItem) :
  menu_order order_items -> round_trip order_items.
Proof.
  intros H. apply well_formed_names_round_trip.
  apply (Forall_impl _ _ _ H). intros item Hitem.
  exact (menu_names_well_formed _ _ Hitem).
Qed.

(** * Further properties *)

(** ** The transaction store *)

Lemma line_total_cases (item : OrderItem) :
  (exists x, Float.of_int (quantity item) = Ok x /\ line_total item = Ok (Float.mul (unit_price item) x))
  \/ (is_OverflowError (line_total item) /\ raises (Float.of_int (quantity item))).
Proof.
  unfold line_total, Float.of_int.
  destruct (binary_normalize _ _ _ _ _) eqn:E; simpl; eauto.
Qed.

Lemma sum_line_totals_cases (order_items : list OrderItem) (acc : Float.float) :
  (quantities_convert order_items /\ exists sum, sum_line_totals acc order_items = Ok sum)
  \/ (~ quantities_convert order_items /\ is_OverflowError (sum_line_totals acc order_items)).
Proof.
  revert acc. induction order_items as [|item rest IH]; intros acc; simpl.
  - left. split; [constructor | eauto].
  - destruct (line_total_cases item) as [(x & Hx & ->)|[Ho Hr]]; simpl.
    + destruct (IH (Float.add acc (Float.mul (unit_price item) x))) as [[Hq Hs]|[Hq Hs]].
      * left. split; [constructor; eauto | exact Hs].
      * right. split; [|exact Hs]. intros H. apply Hq. inversion H; assumption.
    + right. split.
      * intros H. inversion H as [|? ? [x Hx] _]; subst. rewrite Hx in Hr. exact Hr.
      * destruct (line_total item) as [|[]]; simpl in *; tauto.
Qed.

(** X1. Computing the totals fails exactly when the quantity of some item
    is too large to be converted to a float, and then with
    [OverflowError]; the two copies of [calculate_totals] fail on the same
    orders. *)
Theorem calculate_totals_fails_iff_quantity_too_large (order_items : list OrderItem) :
  ((exists t, billing_core.calculate_totals order_items = Ok t) <-> quantities_convert order_items)
  /\ ((exists t, pos_logic.calculate_totals order_items = Ok t) <-> quantities_convert order_items)
  /\ (is_OverflowError (billing_core.calculate_totals order_items) <-> ~ quantities_convert order_items)
  /\ (is_OverflowError (pos_logic.calculate_totals order_items) <-> ~ quantities_convert order_items).
Proof.
  unfold billing_core.calculate_totals, pos_logic.calculate_totals.
  destruct (sum_line_totals_cases order_items Float.zero) as [[Hq [sum ->]]|[Hq Hs]]; simpl.
  - repeat split; eauto; tauto.
  - destruct (sum_line_totals Float.zero order_items) as [|[]]; simpl in *; try tauto.
    repeat split; try tauto; intros [t Ht]; discriminate Ht.
Qed.

(** *** Quantities that convert *)

Lemma digits2_iter_xO (m : positive) (k : positive) :
  digits2_pos (Pos.iter xO m k) = (digits2_pos m + k)%positive.
Proof.
  revert m. induction k using Pos.peano_ind; intros m.
  - simpl. lia.
  - rewrite Pos.iter_succ. simpl. rewrite IHk. lia.
Qed.

Lemma digits2_bound (m : positive) : Zpos m < 2 ^ Zpos (digits2_pos m).
Proof.
  induction m; simpl digits2_pos; rewrite ?Pos2Z.inj_succ, ?Z.pow_succ_r by lia; lia.
Qed.

Lemma digits2_le (m : positive) (k : Z) : 0 <= k -> Zpos m < 2 ^ k -> Zpos (digits2_pos m) <= k.
Proof.
  revert k. induction m; intros k Hk H; simpl digits2_pos; rewrite ?Pos2Z.inj_succ.
  - assert (0 < k) by (destruct (Z.eq_dec k 0) as [->|]; [simpl in H; lia | lia]).
    replace k with (Z.succ (k - 1)) in H by lia. rewrite Z.pow_succ_r in H by lia.
    specialize (IHm (k - 1)). lia.
  - assert (0 < k) by (destruct (Z.eq_dec k 0) as [->|]; [simpl in H; lia | lia]).
    replace k with (Z.succ (k - 1)) in H by lia. rewrite Z.pow_succ_r in H by lia.
    specialize (IHm (k - 1)). lia.
  - destruct (Z.eq_dec k 0) as [->|]; [simpl in H; lia | lia].
Qed.

Lemma binary_round_small (s : bool) (m : positive) :
  Zpos m < 2 ^ 53 ->
  exists m' e', binary_round 53 1024 s m 0 = S754_finite s m' e'.
Proof.
  intros Hm. pose proof (digits2_le m 53 ltac:(lia) Hm) as Hd.
  unfold binary_round.
  assert (Hf : fexp 53 1024 (Zpos (digits2_pos m) + 0) = Zpos (digits2_pos m) - 53).
  { unfold fexp, emin. lia. }
  rewrite Hf. unfold shl_align.
  destruct (Zpos (digits2_pos m) - 53 - 0) as [|k|k] eqn:Ek; try lia.
  - (* exactly 53 digits *)
    unfold binary_round_aux, shr_fexp. simpl Zdigits2.
    assert (Hf0 : fexp 53 1024 (Zpos (digits2_pos m) + 0) - 0 = 0) by (rewrite Hf; lia).
    rewrite Hf0. simpl. rewrite Hf0. simpl. eauto.
  - unfold binary_round_aux, shr_fexp. simpl Zdigits2.
    rewrite digits2_iter_xO.
    assert (Hf1 : fexp 53 1024 (Zpos (digits2_pos m + k) + (Zpos (digits2_pos m) - 53))
                  - (Zpos (digits2_pos m) - 53) = 0).
    { unfold fexp, emin. lia. }
    rewrite Hf1. simpl. rewrite digits2_iter_xO, Hf1. simpl.
    destruct (Zpos (digits2_pos m) - 53 <=? 1024 - 53) eqn:El; [eauto|]. lia.
Qed.

Lemma of_int_small (z : Z) : Z.abs z < 2 ^ 53 -> exists x, Float.of_int z = Ok x.
Proof.
  intros Hz. unfold Float.of_int, binary_normalize, Float.prec, Float.emax.
  destruct z as [|m|m]; [eauto|..].
  - destruct (binary_round_small false m) as (m' & e' & ->); [lia | eauto].
  - destruct (binary_round_small true m) as (m' & e' & ->); [lia | eauto].
Qed.

(** X2. For an order in which every quantity is below 2^53 in absolute
    value, both copies of [calculate_totals] return totals. *)
Theorem calculate_totals_returns_for_moderate_quantities (order_items : list OrderItem) :
  Forall (fun item => Z.abs (quantity item) < 2 ^ 53) order_items ->
  (exists t, billing_core.calculate_totals order_items = Ok t)
  /\ (exists t, pos_logic.calculate_totals order_items = Ok t).
Proof.
  intros H.
  assert (Hq : quantities_convert order_items).
  { apply (Forall_impl _ _ _ H). intros item Hi. apply of_int_small, Hi. }
  unfold billing_core.calculate_totals, pos_logic.calculate_totals.
  destruct (sum_line_totals_cases order_items Float.zero) as [[_ [sum ->]]|[Hn _]];
    [simpl; eauto | contradiction].
Qed.

Lemma calculate_totals_returns_for_moderate_quantities_witness :
  (exists t, billing_core.calculate_totals latte_and_vada_pav = Ok t)
  /\ (exists t, pos_logic.calculate_totals latte_and_vada_pav = Ok t).
Proof.
  apply (calculate_totals_returns_for_moderate_quantities latte_and_vada_pav).
  repeat constructor; simpl; lia.
Defined.

(** ** The sales file only grows *)


(** ** Amounts are read back as written *)

Lemma to_str_nonneg (z : Z) :
  0 <= z -> exists d, Int.to_str z = NilEmpty.string_of_uint d /\ uint_value 0 d = z.
Proof.
  intros Hz. unfold Int.to_str, NilZero.string_of_int.
  destruct z as [|p|p]; [| |lia].
  - exists Decimal.zero. split; reflexivity.
  - exists (Pos.to_uint p). simpl Z.to_int. split.
    + unfold NilZero.string_of_uint.
      destruct (Pos.to_uint p) eqn:E; try reflexivity.
      exfalso. apply (DecimalPos.Unsigned.to_uint_nonnil p E).
    + rewrite uint_value_of_uint. unfold Z.of_uint.
      rewrite DecimalPos.Unsigned.of_to. reflexivity.
Qed.

Lemma span_digits_digit (c : ascii) (s : string) (acc : Z) :
  Str.isdigit c = true ->
  FloatParse.span_digits acc (String c s)
  = let '(v, n, rest) := FloatParse.span_digits (10 * acc + Str.digit_val c) s in
    (v, S n, rest).
Proof. intros H. cbn [FloatParse.span_digits]. rewrite H. reflexivity. Qed.

Lemma span_digits_stop (s : string) (acc : Z) :
  Int.starts_with_digit s = false -> FloatParse.span_digits acc s = (acc, O, s).
Proof.
  destruct s as [|c s]; [reflexivity|]. simpl. intros ->. reflexivity.
Qed.

Lemma span_digits_uint (d : Decimal.uint) (acc : Z) (rest : string) :
  Int.starts_with_digit rest = false ->
  FloatParse.span_digits acc (NilEmpty.string_of_uint d +:+ rest)
  = (uint_value acc d, Decimal.nb_digits d, rest).
Proof.
  intros Hr. revert acc.
  induction d; intros acc; cbn [NilEmpty.string_of_uint uint_value Decimal.nb_digits];
    rewrite ?sapp_cons, ?sapp_nil;
    [ apply span_digits_stop, Hr
    | rewrite span_digits_digit by reflexivity; rewrite IHd;
      change (Str.digit_val _) with 0 || idtac; rewrite ?Z.add_0_r; reflexivity .. ].
Qed.

Lemma digit_char (a : Z) :
  0 <= a <= 9 ->
  Str.isdigit (ascii_of_N (Z.to_N (48 + a))) = true
  /\ Str.digit_val (ascii_of_N (Z.to_N (48 + a))) = a.
Proof.
  intros H.
  assert (Hc : a = 0 \/ a = 1 \/ a = 2 \/ a = 3 \/ a = 4 \/ a = 5 \/ a = 6
               \/ a = 7 \/ a = 8 \/ a = 9) by lia.
  repeat destruct Hc as [->|Hc]; try subst a; split; reflexivity.
Qed.

Lemma two_digits_chars (r : Z) :
  0 <= r < 100 ->
  Float.two_digits r
  = String (ascii_of_N (Z.to_N (48 + r / 10)))
      (String (ascii_of_N (Z.to_N (48 + r mod 10))) "").
Proof.
  intros Hr.
  assert (H : forallb
                (fun k =>
                   String.eqb (Float.two_digits (Z.of_nat k))
                     (String (ascii_of_N (Z.to_N (48 + Z.of_nat k / 10)))
                        (String (ascii_of_N (Z.to_N (48 + Z.of_nat k mod 10))) "")))
                (seq 0 100) = true) by (vm_compute; reflexivity).
  rewrite forallb_forall in H. specialize (H (Z.to_nat r)).
  rewrite Z2Nat.id in H by lia. apply String.eqb_eq, H, in_seq. lia.
Qed.

Lemma span_two_digits (r acc : Z) :
  0 <= r < 100 ->
  FloatParse.span_digits acc (Float.two_digits r) = (100 * acc + r, 2%nat, "").
Proof.
  intros Hr. rewrite (two_digits_chars r Hr).
  assert (Ha : 0 <= r / 10 <= 9).
  { split; [apply Z.div_pos; lia|]. apply Z.lt_succ_r, Z.div_lt_upper_bound; lia. }
  assert (Hb : 0 <= r mod 10 <= 9) by (pose proof (Z.mod_pos_bound r 10); lia).
  destruct (digit_char _ Ha) as [Ha1 Ha2], (digit_char _ Hb) as [Hb1 Hb2].
  rewrite (span_digits_digit _ _ _ Ha1), (span_digits_digit _ _ _ Hb1), Ha2, Hb2.
  cbn [FloatParse.span_digits]. f_equal. f_equal.
  pose proof (Z.div_mod r 10). lia.
Qed.

Lemma scaled_hundredths_nonneg (m : positive) (e : Z) : 0 <= Float.scaled_hundredths m e.
Proof.
  unfold Float.scaled_hundredths. destruct e as [|k|k].
  - lia.
  - pose proof (Z.pow_pos_nonneg 2 (Zpos k)). nia.
  - assert (0 <= (Zpos m * 100) / Zpos (2 ^ k)) by (apply Z.div_pos; lia).
    destruct (_ ?= _); [destruct (Z.even _)|..]; lia.
Qed.

Lemma amount_char_facts (c : ascii) :
  is_amount_char c = true -> Int.isspace c = false /\ Int.is_underscore c = false.
Proof.
  destruct c as [[] [] [] [] [] [] [] []]; vm_compute; intros H;
    try discriminate H; split; reflexivity.
Qed.

Lemma remove_underscores_id (s : string) (after_digit : bool) :
  (forall c, In c (list_ascii_of_string s) -> Int.is_underscore c = false) ->
  FloatParse.remove_underscores after_digit s = Some s.
Proof.
  revert after_digit. induction s as [|c s IH]; intros b H; [reflexivity|].
  cbn [FloatParse.remove_underscores].
  rewrite (H c) by (left; reflexivity).
  rewrite IH by (intros c' Hc'; apply H; right; exact Hc'). reflexivity.
Qed.

Lemma two_digits_are_digits (r : Z) (c : ascii) :
  0 <= r < 100 -> In c (list_ascii_of_string (Float.two_digits r)) -> Str.isdigit c = true.
Proof.
  intros Hr. rewrite (two_digits_chars r Hr).
  assert (Ha : 0 <= r / 10 <= 9).
  { split; [apply Z.div_pos; lia|]. apply Z.lt_succ_r, Z.div_lt_upper_bound; lia. }
  assert (Hb : 0 <= r mod 10 <= 9) by (pose proof (Z.mod_pos_bound r 10); lia).
  intros [<-|[<-|[]]]; [apply (digit_char _ Ha) | apply (digit_char _ Hb)].
Qed.

Lemma take_sign_uint (d : Decimal.uint) (rest : string) :
  FloatParse.take_sign (NilEmpty.string_of_uint d +:+ String "." rest)
  = (false, NilEmpty.string_of_uint d +:+ String "." rest).
Proof. destruct d; reflexivity. Qed.

Lemma take_decimal_amount (s : bool) (d : Decimal.uint) (r : Z) :
  0 <= r < 100 ->
  FloatParse.take_decimal
    ((if s then "-" else "") +:+ NilEmpty.string_of_uint d +:+ "." +:+ Float.two_digits r)
  = Some (Float.of_decimal s (100 * uint_value 0 d + r) (-2), "").
Proof.
  intros Hr. unfold FloatParse.take_decimal.
  assert (Hs : FloatParse.take_sign
                 ((if s then "-" else "") +:+ NilEmpty.string_of_uint d +:+ "."
                  +:+ Float.two_digits r)
               = (s, NilEmpty.string_of_uint d +:+ String "." (Float.two_digits r))).
  { destruct s; [reflexivity|]. rewrite sapp_nil. apply take_sign_uint. }
  rewrite Hs, span_digits_uint by reflexivity.
  rewrite span_two_digits by exact Hr.
  destruct (Decimal.nb_digits d); reflexivity.
Qed.

Lemma amount_text_chars (s : bool) (d : Decimal.uint) (r : Z) (c : ascii) :
  0 <= r < 100 ->
  In c (list_ascii_of_string
          ((if s then "-" else "") +:+ NilEmpty.string_of_uint d +:+ "."
           +:+ Float.two_digits r)) ->
  is_amount_char c = true.
Proof.
  intros Hr Hc. rewrite !chars_app in Hc. unfold is_amount_char.
  apply in_app_or in Hc as [Hc|Hc];
    [destruct s; [destruct Hc as [<-|[]]; reflexivity | destruct Hc]|].
  apply in_app_or in Hc as [Hc|Hc];
    [rewrite (string_of_uint_chars d c Hc); reflexivity|].
  apply in_app_or in Hc as [Hc|Hc]; [destruct Hc as [<-|[]]; reflexivity|].
  rewrite (two_digits_are_digits _ c Hr Hc). reflexivity.
Qed.

Lemma of_str_format_2f (x : Float.float) :
  FloatParse.of_str (Float.format_2f x) = Ok (Float.round2 x).
Proof.
  destruct x as [s|s| |s m e]; try (destruct s; reflexivity); [reflexivity|].
  unfold Float.format_2f, Float.round2.
  pose proof (scaled_hundredths_nonneg m e) as Hn.
  set (n := Float.scaled_hundredths m e) in *.
  assert (Hq : 0 <= n / 100) by (apply Z.div_pos; lia).
  assert (Hr : 0 <= n mod 100 < 100) by (apply Z.mod_pos_bound; lia).
  destruct (to_str_nonneg _ Hq) as (d & Hd & Hv). rewrite Hd.
  unfold FloatParse.of_str.
  rewrite strip_no_ws, remove_underscores_id.
  - rewrite (take_decimal_amount s d _ Hr), Hv.
    replace (100 * (n / 100) + n mod 100) with n
      by (pose proof (Z.div_mod n 100); lia).
    reflexivity.
  - intros c Hc. apply amount_char_facts, (amount_text_chars s d _ c Hr Hc).
  - intros c Hc. apply amount_char_facts, (amount_text_chars s d _ c Hr Hc).
Qed.

(** X4. An amount written with two decimals, as [save_transaction] writes
    the cells [Subtotal], [GST] and [FinalTotal], is read back by [float]
    as the amount rounded to two decimals: [float(f"{x:.2f}")] is
    [round(x, 2)] for every float, the infinities and NaN included. *)
Theorem amount_text_reads_back_rounded (x : Float.float) :
  FloatParse.of_str (Float.format_2f x) = Ok (Float.round2 x).
Proof. exact (of_str_format_2f x). Qed.

(** ** Reading the sales file *)






(** ** From the sale to the report *)


Lemma transaction_row_cells (customer_name : string) (order_items : list OrderItem)
    (t : totals) (payment_method timestamp : string) :
  let row := make_dict_row HEADER
               (transaction_row customer_name order_items t payment_method timestamp) in
  row_get row "DateTime" "" = Some timestamp
  /\ row_get row "FinalTotal" "0" = Some (Float.format_2f (snd t))
  /\ row_get row "GST" "0" = Some (Float.format_2f (snd (fst t)))
  /\ row_get row "OrderedItems" "" = Some (format_order_items order_items).
Proof.
  destruct t as [[subtotal gst_amount] final_total]. unfold transaction_row.
  cbn [fst snd].
  generalize (Str.strip customer_name), (format_order_items order_items),
    (Float.format_2f subtotal), (Float.format_2f gst_amount),
    (Float.format_2f final_total), (Str.strip payment_method).
  intros c1 c2 c3 c4 c5 c6. repeat split; vm_compute; reflexivity.
Qed.








Lemma format_2f_nonempty (x : Float.float) : Float.format_2f x <> "".
Proof.
  intros H. pose proof (of_str_format_2f x) as Hx. rewrite H in Hx.
  assert (E : FloatParse.of_str "" = Raise (ValueError "could not convert string to float"))
    by (vm_compute; reflexivity).
  rewrite E in Hx. discriminate Hx.
Qed.

Lemma float_of_amount_cell (x : Float.float) :
  admin.float_of_cell (Some (Float.format_2f x)) = Ok (Float.round2 x).
Proof.
  unfold admin.float_of_cell. pose proof (format_2f_nonempty x) as Hne.
  destruct (Float.format_2f x) eqn:E; [congruence|]. rewrite <- E. apply of_str_format_2f.
Qed.

Lemma counter_update_get (c : Counter) (entries : list (string * Z)) (n : string) :
  counter_get (counter_update c (tally_up [] entries)) n
  = counter_get c n + quantity_of n entries.
Proof.
  unfold counter_update. destruct c as [|kv c].
  - apply tally_up_get.
  - rewrite update_get by apply (tallies_NoDup _ entries), tally_up_tallies.
    rewrite tally_up_get. reflexivity.
Qed.

(** X8. The report takes from a row that [save_transaction] wrote exactly
    what was written: the final total and the tax of the sale, each as
    rounded to two decimals, are added to the running sums, and for an
    order whose item names are well formed (as the names of the menu are)
    the count of every name grows by the quantities ordered under it. *)
Theorem report_adds_saved_amounts (tl : admin.tally)
    (customer_name : string) (order_items : list OrderItem)
    (subtotal gst_amount final_total : Float.float) (payment_method timestamp : string) :
  Forall (fun item => well_formed_name (name item)) order_items ->
  exists tl' : admin.tally,
    admin.summary_step tl
      (make_dict_row HEADER
         (transaction_row customer_name order_items (subtotal, gst_amount, final_total)
            payment_method timestamp))
    = Ok tl'
    /\ admin.total_sales tl' = Float.add (admin.total_sales tl) (Float.round2 final_total)
    /\ admin.total_gst tl' = Float.add (admin.total_gst tl) (Float.round2 gst_amount)
    /\ forall n, counter_get (admin.item_counter tl') n
                 = counter_get (admin.item_counter tl) n
                   + quantity_of n (item_entries order_items).
Proof.
  intros Hnames. unfold admin.summary_step.
  destruct (transaction_row_cells customer_name order_items
              (subtotal, gst_amount, final_total) payment_method timestamp)
    as (_ & -> & -> & ->).
  cbn [fst snd]. rewrite !float_of_amount_cell. cbn [bind try_except_ValueError].
  rewrite parse_ordered_items_tally, (format_entries order_items Hnames). cbn [bind].
  eexists. split; [reflexivity|]. cbn. repeat split.
  intros n. apply counter_update_get.
Qed.

Lemma report_adds_saved_amounts_witness :
  exists tl' : admin.tally,
    admin.summary_step (admin.mkTally Float.zero Float.zero [])
      (make_dict_row HEADER
         (transaction_row "Asha" latte_and_vada_pav
            (lit 270 0, lit 135 (-1), lit 2835 (-1)) "Cash" "2024-05-01 18:00:00"))
    = Ok tl'
    /\ admin.total_sales tl' = Float.add Float.zero (Float.round2 (lit 2835 (-1)))
    /\ admin.total_gst tl' = Float.add Float.zero (Float.round2 (lit 135 (-1)))
    /\ forall n, counter_get (admin.item_counter tl') n
                 = counter_get [] n + quantity_of n (item_entries latte_and_vada_pav).
Proof.
  apply (report_adds_saved_amounts (admin.mkTally Float.zero Float.zero []) "Asha"
           latte_and_vada_pav (lit 270 0) (lit 135 (-1)) (lit 2835 (-1)) "Cash"
           "2024-05-01 18:00:00").
  repeat constructor; simpl; try discriminate; vm_compute; reflexivity.
Defined.

(** ** The item-list text *)

Lemma split_nonempty (sep : ascii) (s : string) : Str.split sep s <> [].
Proof.
  destruct s as [|c s]; simpl; [discriminate|].
  destruct (Ascii.eqb c sep); [discriminate|].
  destruct (Str.split sep s); discriminate.
Qed.

Lemma split_app (sep : ascii) (s1 s2 : string) :
  Str.split sep (s1 +:+ String sep s2) = Str.split sep s1 ++ Str.split sep s2.
Proof.
  induction s1 as [|c s1 IH].
  - rewrite sapp_nil. simpl. rewrite Ascii.eqb_refl. reflexivity.
  - rewrite sapp_cons. cbn [Str.split]. rewrite IH.
    destruct (Ascii.eqb c sep); [reflexivity|].
    pose proof (split_nonempty sep s1) as Hne.
    destruct (Str.split sep s1) as [|p ps]; [congruence | reflexivity].
Qed.

Lemma entries_of_text_app (s1 s2 : string) :
  entries_of_text (s1 +:+ ";" +:+ s2) = entries_of_text s1 ++ entries_of_text s2.
Proof.
  unfold entries_of_text.
  change (";" +:+ s2) with (String ";" s2). rewrite split_app. apply omap_app.
Qed.

(** X9. Decoding two item lists joined by [";"] gives, for every name, the
    sum of the counts that decoding each of them gives: the decoding of a
    cell is the tally of its segments, whatever the texts are. *)
Theorem parse_ordered_items_joined (s1 s2 : string) :
  exists c c1 c2 : Counter,
    admin._parse_ordered_items (Some (s1 +:+ ";" +:+ s2)) = Ok c
    /\ admin._parse_ordered_items (Some s1) = Ok c1
    /\ admin._parse_ordered_items (Some s2) = Ok c2
    /\ forall n, counter_get c n = counter_get c1 n + counter_get c2 n.
Proof.
  rewrite !parse_ordered_items_tally. do 3 eexists. repeat split.
  intros n. rewrite !tally_up_get, entries_of_text_app, quantity_of_app.
  simpl. lia.
Qed.

(** X10. The item-list text determines the names and quantities of the
    order: two orders whose item names are well formed and that are
    written as the same text have the same names with the same quantities,
    in the same order. (The unit prices are not part of the text.) *)
Theorem format_order_items_injective (order_items1 order_items2 : list OrderItem) :
  Forall (fun item => well_formed_name (name item)) order_items1 ->
  Forall (fun item => well_formed_name (name item)) order_items2 ->
  format_order_items order_items1 = format_order_items order_items2 ->
  item_entries order_items1 = item_entries order_items2.
Proof.
  intros H1 H2 E.
  rewrite <- (format_entries order_items1 H1), <- (format_entries order_items2 H2), E.
  reflexivity.
Qed.

Lemma format_order_items_injective_witness :
  item_entries latte_and_vada_pav
  = item_entries [mkOrderItem "Latte" 2 (lit 1 0); mkOrderItem "Vada pav" 1 (lit 2 0)].
Proof.
  apply (format_order_items_injective latte_and_vada_pav
           [mkOrderItem "Latte" 2 (lit 1 0); mkOrderItem "Vada pav" 1 (lit 2 0)]).
  - repeat constructor; simpl; try discriminate; vm_compute; reflexivity.
  - repeat constructor; simpl; try discriminate; vm_compute; reflexivity.
  - vm_compute. reflexivity.
Defined.

(** * The order-entry surfaces *)

(** ** Digits for [isdigit] and digits for [int()] *)

Lemma isdigit_char_facts (c : ascii) :
  Unicode.isdigit_char c = true ->
  Int.isspace c = false /\ Int.is_underscore c = false
  /\ c <> "+"%char /\ c <> "-"%char.
Proof.
  destruct c as [[] [] [] [] [] [] [] []]; vm_compute; intros H;
    try discriminate H; repeat split; discriminate.
Qed.

Lemma digit_val_range (c : ascii) : Str.isdigit c = true -> 0 <= Str.digit_val c <= 9.
Proof.
  destruct c as [[] [] [] [] [] [] [] []]; vm_compute; intros H;
    try discriminate H; split; discriminate.
Qed.

Lemma isdigit_chars (s : string) :
  Unicode.isdigit s = true ->
  s <> "" /\ forall c, In c (list_ascii_of_string s) -> Unicode.isdigit_char c = true.
Proof.
  destruct s as [|c s]; [discriminate|]. unfold Unicode.isdigit.
  intros H. split; [discriminate|]. revert H. generalize (String c s). clear c s.
  induction s as [|c s IH]; simpl; [tauto|].
  intros H c' [<-|Hc']; apply andb_true_iff in H as [Hc Hs]; [exact Hc | exact (IH Hs c' Hc')].
Qed.

Lemma of_str_unsigned (s : string) :
  Unicode.isdigit s = true ->
  Int.of_str s
  = match Int.unsigned_value s with
    | Some v => Ok v
    | None => Raise invalid_literal
    end.
Proof.
  intros H. destruct (isdigit_chars s H) as [Hne Hall].
  assert (Hs : Str.strip_by Int.isspace s = s).
  { apply strip_no_ws. intros c Hc. apply isdigit_char_facts, Hall, Hc. }
  unfold Int.of_str. rewrite Hs.
  destruct s as [|c s]; [congruence|].
  pose proof (Hall c (or_introl eq_refl)) as Hc.
  destruct c as [[] [] [] [] [] [] [] []]; try discriminate Hc; reflexivity.
Qed.

Lemma digits_value_nonneg (s : string) (acc v : Z) :
  0 <= acc -> Int.digits_value acc s = Some v -> 0 <= v.
Proof.
  revert acc. induction s as [|c s IH]; intros acc Hacc; simpl.
  - intros [= <-]. exact Hacc.
  - destruct (Str.isdigit c) eqn:Hc.
    + apply IH. pose proof (digit_val_range c Hc). lia.
    + destruct (Int.is_underscore c); [|discriminate].
      destruct (Int.starts_with_digit s); [|discriminate]. apply IH, Hacc.
Qed.

Lemma digits_value_decimal (s : string) (acc : Z) :
  (forall c, In c (list_ascii_of_string s) -> Str.isdigit c = true) ->
  exists v, Int.digits_value acc s = Some v.
Proof.
  revert acc. induction s as [|c s IH]; intros acc H; simpl; [eauto|].
  rewrite (H c) by (left; reflexivity). apply IH.
  intros c' Hc'. apply H. right. exact Hc'.
Qed.

Lemma digits_value_superscript (s : string) (acc : Z) :
  (forall c, In c (list_ascii_of_string s) -> Unicode.isdigit_char c = true) ->
  (exists c, In c (list_ascii_of_string s) /\ Str.isdigit c = false) ->
  Int.digits_value acc s = None.
Proof.
  revert acc. induction s as [|c s IH]; intros acc Hall (b & Hb & Hbad); simpl in *.
  - destruct Hb.
  - destruct (Str.isdigit c) eqn:Hc.
    + apply IH; [intros c' Hc'; apply Hall; right; exact Hc'|].
      destruct Hb as [->|Hb]; [congruence|]. exists b. split; assumption.
    + destruct (isdigit_char_facts c (Hall c (or_introl eq_refl))) as (_ & -> & _).
      reflexivity.
Qed.

(** For a text that passes [isdigit], [int()] returns exactly when every
    character is a decimal digit, and then a value that is not negative. *)
Lemma of_str_isdigit_cases (s : string) :
  Unicode.isdigit s = true ->
  ((forall c, In c (list_ascii_of_string s) -> Str.isdigit c = true)
   /\ exists q, Int.of_str s = Ok q /\ 0 <= q)
  \/ ((exists c, In c (list_ascii_of_string s) /\ is_superscript_digit c = true)
      /\ Int.of_str s = Raise invalid_literal).
Proof.
  intros H. rewrite (of_str_unsigned s H).
  destruct (isdigit_chars s H) as [Hne Hall].
  destruct (forallb Str.isdigit (list_ascii_of_string s)) eqn:Hd.
  - left. rewrite forallb_forall in Hd. split; [exact Hd|].
    unfold Int.unsigned_value.
    destruct s as [|c s]; [congruence|].
    cbn [Int.starts_with_digit]. rewrite (Hd c) by (left; reflexivity).
    destruct (digits_value_decimal (String c s) 0 Hd) as [v Hv]. rewrite Hv.
    exists v. split; [reflexivity|]. apply (digits_value_nonneg (String c s) 0 v); [lia | exact Hv].
  - right.
    assert (Hbad : exists c, In c (list_ascii_of_string s) /\ Str.isdigit c = false).
    { apply not_true_iff_false in Hd.
      destruct (existsb (fun c => negb (Str.isdigit c)) (list_ascii_of_string s)) eqn:He.
      - apply existsb_exists in He as (c & Hc & Hn). exists c. split; [exact Hc|].
        destruct (Str.isdigit c); [discriminate | reflexivity].
      - exfalso. apply Hd, forallb_forall. intros c Hc.
        destruct (Str.isdigit c) eqn:E; [reflexivity|].
        assert (existsb (fun c => negb (Str.isdigit c)) (list_ascii_of_string s) = true)
          by (apply existsb_exists; exists c; rewrite E; auto).
        congruence. }
    split.
    + destruct Hbad as (c & Hc & Hn). exists c. split; [exact Hc|].
      unfold is_superscript_digit. rewrite (Hall c Hc), Hn. reflexivity.
    + unfold Int.unsigned_value.
      rewrite (digits_value_superscript s 0 Hall Hbad).
      destruct (Int.starts_with_digit s); reflexivity.
Qed.

(** ** The prompts of the console *)

Lemma prompt_quantity_cases (inputs : list string) :
  match cli_app._prompt_quantity inputs with
  | Returned q rest =>
      exists skipped line,
        inputs = skipped ++ line :: rest
        /\ Forall quantity_line_rejected skipped /\ quantity_line_accepted line q
  | Uncaught EOFError => Forall quantity_line_rejected inputs
  | Uncaught (Builtin e) =>
      e = invalid_literal
      /\ exists skipped line rest,
           inputs = skipped ++ line :: rest
           /\ Forall quantity_line_rejected skipped /\ quantity_line_fatal line
  | Uncaught (KeyError _) => False
  end.
Proof.
  induction inputs as [|line rest IH]; [constructor|].
  cbn [cli_app._prompt_quantity].
  assert (Hskip : quantity_line_rejected line ->
          match cli_app._prompt_quantity rest with
          | Returned q rest' =>
              exists skipped line',
                line :: rest = skipped ++ line' :: rest'
                /\ Forall quantity_line_rejected skipped /\ quantity_line_accepted line' q
          | Uncaught EOFError => Forall quantity_line_rejected (line :: rest)
          | Uncaught (Builtin e) =>
              e = invalid_literal
              /\ exists skipped line' rest',
                   line :: rest = skipped ++ line' :: rest'
                   /\ Forall quantity_line_rejected skipped /\ quantity_line_fatal line'
          | Uncaught (KeyError _) => False
          end).
  { intros Hrej. destruct (cli_app._prompt_quantity rest) as [q rest'|[e|k|]].
    - destruct IH as (skipped & line' & -> & Hs & Ha).
      exists (line :: skipped), line'. split; [reflexivity|].
      split; [constructor; assumption | exact Ha].
    - destruct IH as (-> & skipped & line' & rest' & -> & Hs & Hf).
      split; [reflexivity|]. exists (line :: skipped), line', rest'.
      split; [reflexivity|]. split; [constructor; assumption | exact Hf].
    - exact IH.
    - constructor; assumption. }
  destruct (Unicode.isdigit (Str.strip line)) eqn:Hd; cbn [negb].
  - destruct (of_str_isdigit_cases _ Hd) as [[_ (q & Hq & Hnn)]|[_ Hr]].
    + rewrite Hq. unfold validate_quantity. destruct (q <=? 0) eqn:Hle.
      * apply Hskip. right. rewrite Hq. f_equal. lia.
      * exists [], line. split; [reflexivity|]. split; [constructor|].
        split; [exact Hd|]. split; [exact Hq | lia].
    + rewrite Hr. split; [reflexivity|]. exists [], line, rest.
      split; [reflexivity|]. split; [constructor|]. split; assumption.
  - apply Hskip. left. exact Hd.
Qed.


Lemma add_to_order_cases_invalid (g : gui.PosGUI) :
  Str.strip (gui.selected_item_var g) <> "" ->
  Unicode.isdigit (Str.strip (gui.quantity_var g)) = true ->
  Int.of_str (Str.strip (gui.quantity_var g)) = Raise invalid_literal ->
  gui._on_add_to_order g = gui.Done g (Some (gui.showwarning "Invalid quantity")).
Proof.
  intros Hsel Hd Hr. unfold gui._on_add_to_order.
  destruct (Str.strip (gui.selected_item_var g)); [congruence|].
  rewrite Hd, Hr. reflexivity.
Qed.

(** X12. A quantity text that passes [isdigit] and contains a superscript
    digit (one of the characters 178, 179, 185) ends the console prompt
    with the [ValueError] of [int()], which there stands before the [try];
    in the window, where it stands inside the [try], the same text is
    answered by the warning [Invalid quantity] and changes nothing. *)
Theorem superscript_quantity_console_and_window
    (line : string) (rest : list string) (g : gui.PosGUI) (c : ascii) :
  Unicode.isdigit (Str.strip line) = true ->
  In c (list_ascii_of_string (Str.strip line)) ->
  is_superscript_digit c = true ->
  Str.strip (gui.selected_item_var g) <> "" ->
  gui.quantity_var g = line ->
  cli_app._prompt_quantity (line :: rest) = Uncaught (Builtin invalid_literal)
  /\ gui._on_add_to_order g = gui.Done g (Some (gui.showwarning "Invalid quantity")).
Proof.
  intros Hd Hc Hsup Hsel Hq.
  assert (Hr : Int.of_str (Str.strip line) = Raise invalid_literal).
  { destruct (of_str_isdigit_cases _ Hd) as [[Hall _]|[_ Hr]]; [|exact Hr].
    unfold is_superscript_digit in Hsup. rewrite (Hall c Hc) in Hsup.
    rewrite andb_false_r in Hsup. discriminate Hsup. }
  split.
  - cbn [cli_app._prompt_quantity]. rewrite Hd, Hr. reflexivity.
  - apply add_to_order_cases_invalid; rewrite ?Hq; assumption.
Qed.

Lemma superscript_quantity_console_and_window_witness :
  cli_app._prompt_quantity [String "1" (String "178" ""); "2"]
  = Uncaught (Builtin invalid_literal)
  /\ gui._on_add_to_order
       (gui.mkPosGUI [] "Asha" (String "1" (String "178" "")) "Latte" "Cash"
          "0.00" "0.00" "0.00")
     = gui.Done
         (gui.mkPosGUI [] "Asha" (String "1" (String "178" "")) "Latte" "Cash"
            "0.00" "0.00" "0.00")
         (Some (gui.showwarning "Invalid quantity")).
Proof.
  apply (superscript_quantity_console_and_window (String "1" (String "178" "")) ["2"]
           (gui.mkPosGUI [] "Asha" (String "1" (String "178" "")) "Latte" "Cash"
              "0.00" "0.00" "0.00") "178"%char).
  - vm_compute. reflexivity.
  - vm_compute. right. left. reflexivity.
  - vm_compute. reflexivity.
  - vm_compute. discriminate.
  - reflexivity.
Defined.

Lemma prompt_item_name_cases (inputs : list string) :
  match cli_app._prompt_item_name inputs with
  | Returned item_name rest =>
      exists skipped line,
        inputs = skipped ++ line :: rest
        /\ Forall item_line_rejected skipped
        /\ ((item_line_done line /\ item_name = "")
            \/ (item_line_named line /\ item_name = Str.strip line /\ item_name <> ""))
  | Uncaught e => e = EOFError /\ Forall item_line_rejected inputs
  end.
Proof.
  induction inputs as [|line rest IH]; [split; [reflexivity | constructor]|].
  cbn [cli_app._prompt_item_name].
  destruct (String.eqb (Unicode.lower (Str.strip line)) "done") eqn:Hdone.
  - apply String.eqb_eq in Hdone. exists [], line.
    split; [reflexivity|]. split; [constructor|]. left. split; [exact Hdone | reflexivity].
  - apply String.eqb_neq in Hdone.
    destruct (decide (is_Some (cli_app.all_items !! Str.strip line))) as [Hin|Hout].
    + rewrite bool_decide_true by exact Hin. exists [], line.
      split; [reflexivity|]. split; [constructor|]. right.
      split; [split; assumption|]. split; [reflexivity|].
      intros E. rewrite E in Hin. vm_compute in Hin. destruct Hin as [x Hx]. discriminate Hx.
    + rewrite bool_decide_false by exact Hout.
      assert (Hrej : item_line_rejected line).
      { split; [exact Hdone|]. apply eq_None_not_Some, Hout. }
      destruct (cli_app._prompt_item_name rest) as [item_name rest'|e].
      * destruct IH as (skipped & line' & -> & Hs & Hl).
        exists (line :: skipped), line'. split; [reflexivity|].
        split; [constructor; assumption | exact Hl].
      * destruct IH as [-> Hall]. split; [reflexivity | constructor; assumption].
Qed.

(** ** Taking an order at the console *)

Lemma cli_all_items_eq : cli_app.all_items = get_all_items.
Proof.
  unfold cli_app.all_items, get_all_items.
  rewrite (right_id_L ∅ (∪) DRINKS_MENU). reflexivity.
Qed.

Lemma take_order_loop_cases (rounds : nat) (order_items : list OrderItem)
    (inputs : list string) :
  (length inputs < rounds)%nat ->
  Forall entered_item order_items ->
  exists o,
    cli_app.take_order_loop rounds order_items inputs = Some o
    /\ match o with
       | Returned items rest =>
           Forall entered_item items
           /\ order_items `prefix_of` items
           /\ exists read, inputs = read ++ rest
       | Uncaught e => e = EOFError \/ e = Builtin invalid_literal
       end.
Proof.
  revert order_items inputs.
  induction rounds as [|rounds IH]; intros order_items inputs Hlen Hitems; [lia|].
  cbn [cli_app.take_order_loop].
  pose proof (prompt_item_name_cases inputs) as Hname.
  destruct (cli_app._prompt_item_name inputs) as [item_name rest|e].
  - destruct Hname as (skipped & line & -> & _ & Hline).
    destruct item_name as [|a item_name].
    + eexists. split; [reflexivity|]. split; [exact Hitems|].
      split; [reflexivity|]. exists (skipped ++ [line]). rewrite <- app_assoc. reflexivity.
    + destruct Hline as [[_ Hempty]|([_ Hin] & Heq & _)]; [discriminate Hempty|].
      pose proof (prompt_quantity_cases rest) as Hqty.
      destruct (cli_app._prompt_quantity rest) as [q rest'|[e|k|]].
      * destruct Hqty as (skipped' & line' & -> & _ & _ & _ & Hpos).
        rewrite <- Heq in Hin. destruct Hin as [price Hprice]. rewrite Hprice.
        destruct (IH (order_items ++ [mkOrderItem (String a item_name) q price]) rest')
          as (o & -> & Ho).
        -- rewrite !length_app in Hlen. cbn [length] in Hlen.
           rewrite length_app in Hlen. cbn [length] in Hlen. lia.
        -- apply Forall_app. split; [exact Hitems|]. constructor; [|constructor].
           split; [|exact Hpos]. cbn [name unit_price].
           rewrite <- cli_all_items_eq. exact Hprice.
        -- exists o. split; [reflexivity|]. destruct o as [items rest''|e]; [|exact Ho].
           destruct Ho as (Hall & Hpre & read & ->). split; [exact Hall|]. split.
           ++ etransitivity; [|exact Hpre]. apply prefix_app_r. reflexivity.
           ++ exists (skipped ++ line :: skipped' ++ line' :: read).
              rewrite <- !app_assoc. cbn. rewrite <- !app_assoc. reflexivity.
      * destruct Hqty as [-> _]. eexists. split; [reflexivity|]. right. reflexivity.
      * destruct Hqty.
      * eexists. split; [reflexivity|]. left. reflexivity.
  - destruct Hname as [-> _]. eexists. split; [reflexivity|]. left. reflexivity.
Qed.

Lemma take_order_from_cli_cases (inputs : list string) :
  exists o,
    cli_app.take_order_from_cli inputs = Some o
    /\ match o with
       | Returned items rest =>
           Forall entered_item items /\ exists read, inputs = read ++ rest
       | Uncaught e => e = EOFError \/ e = Builtin invalid_literal
       end.
Proof.
  destruct (take_order_loop_cases (S (length inputs)) [] inputs) as (o & Ho & H);
    [lia | constructor|].
  exists o. split; [exact Ho|]. destruct o as [items rest|e]; [|exact H].
  destruct H as (Hall & _ & Hread). split; assumption.
Qed.

(** X13. [take_order_from_cli] comes to an end on every input, within the
    rounds that the lines allow. The order it returns holds only items of
    the menu, each at its menu price and in a positive quantity; the
    lookup of the price never misses. It can be left only by [EOFError]
    or by the [ValueError] of [int()]. *)
Theorem take_order_from_cli_outcome (inputs : list string) :
  exists o,
    cli_app.take_order_from_cli inputs = Some o
    /\ match o with
       | Returned items rest =>
           Forall entered_item items /\ exists read, inputs = read ++ rest
       | Uncaught e => e = EOFError \/ e = Builtin invalid_literal
       end.
Proof. exact (take_order_from_cli_cases inputs). Qed.









(** ** Paying at the console *)

Lemma prompt_payment_method_cases (inputs : list string) :
  match cli_app._prompt_payment_method inputs with
  | Returned method rest =>
      exists skipped line,
        inputs = skipped ++ line :: rest
        /\ Forall payment_line_rejected skipped /\ payment_choice line method
  | Uncaught e => e = EOFError /\ Forall payment_line_rejected inputs
  end.
Proof.
  induction inputs as [|line rest IH]; [split; [reflexivity | constructor]|].
  cbn [cli_app._prompt_payment_method].
  destruct (decide (Str.strip line ∈ ({["1"; "2"; "3"]} : gset string))) as [Hin|Hout].
  - rewrite bool_decide_true by exact Hin.
    assert (Hc : Str.strip line = "1" \/ Str.strip line = "2" \/ Str.strip line = "3")
      by (set_unfold; tauto).
    destruct Hc as [E|[E|E]]; rewrite E; cbn; exists [], line;
      (split; [reflexivity|]); (split; [constructor|]); unfold payment_choice; tauto.
  - rewrite bool_decide_false by exact Hout.
    assert (Hrej : payment_line_rejected line).
    { unfold payment_line_rejected. set_unfold. tauto. }
    destruct (cli_app._prompt_payment_method rest) as [method rest'|e].
    + destruct IH as (skipped & line' & -> & Hs & Hl).
      exists (line :: skipped), line'. split; [reflexivity|].
      split; [constructor; assumption | exact Hl].
    + destruct IH as [-> Hall]. split; [reflexivity | constructor; assumption].
Qed.

(** X15. [_prompt_payment_method] returns the method of the first line
    that is [1], [2] or [3] once stripped ([Cash], [Card], [UPI] in this
    order), having skipped every other line; the index it computes is
    never out of range, and only [EOFError] can leave it. *)
Theorem prompt_payment_method_outcome (inputs : list string) :
  match cli_app._prompt_payment_method inputs with
  | Returned method rest =>
      exists skipped line,
        inputs = skipped ++ line :: rest
        /\ Forall payment_line_rejected skipped /\ payment_choice line method
  | Uncaught e => e = EOFError /\ Forall payment_line_rejected inputs
  end.
Proof. exact (prompt_payment_method_cases inputs). Qed.

(** ** Stripping twice *)

Lemma rstrip_tail_fixed (ws : ascii -> bool) (c : ascii) (s : string) :
  Str.rstrip_by ws (String c s) = String c s -> Str.rstrip_by ws s = s.
Proof.
  rewrite rstrip_cons. destruct (Str.rstrip_by ws s) as [|b r].
  - destruct (ws c); [discriminate|]. intros [= <-]. reflexivity.
  - intros [= <-]. reflexivity.
Qed.

Lemma rstrip_idempotent (ws : ascii -> bool) (s : string) :
  Str.rstrip_by ws (Str.rstrip_by ws s) = Str.rstrip_by ws s.
Proof.
  induction s as [|c s IH]; [reflexivity|].
  rewrite rstrip_cons. destruct (Str.rstrip_by ws s) as [|b r] eqn:E.
  - destruct (ws c) eqn:Hc; [reflexivity|]. rewrite rstrip_cons. simpl. rewrite Hc. reflexivity.
  - rewrite rstrip_cons, IH. reflexivity.
Qed.

Lemma rstrip_lstrip_fixed (ws : ascii -> bool) (s : string) :
  Str.rstrip_by ws s = s -> Str.rstrip_by ws (Str.lstrip_by ws s) = Str.lstrip_by ws s.
Proof.
  induction s as [|c s IH]; intros H; [reflexivity|]. simpl Str.lstrip_by.
  destruct (ws c); [|exact H]. apply IH, (rstrip_tail_fixed ws c s H).
Qed.

Lemma lstrip_idempotent (ws : ascii -> bool) (s : string) :
  Str.lstrip_by ws (Str.lstrip_by ws s) = Str.lstrip_by ws s.
Proof.
  pose proof (lstrip_head ws s) as H.
  destruct (Str.lstrip_by ws s) as [|c r]; [reflexivity|]. simpl. rewrite H. reflexivity.
Qed.

Lemma strip_idempotent (s : string) : Str.strip (Str.strip s) = Str.strip s.
Proof.
  unfold Str.strip, Str.strip_by.
  rewrite rstrip_lstrip_fixed by apply rstrip_idempotent.
  apply lstrip_idempotent.
Qed.

(** ** A sale at the console *)

Lemma save_cases (calculate_totals : list OrderItem -> result totals)
    (customer_name : string) (order_items : list OrderItem)
    (payment_method timestamp : string) (f : file) :
  Str.strip customer_name <> "" -> order_items <> [] ->
  save_transaction_with calculate_totals customer_name order_items payment_method
    timestamp f
  = match calculate_totals order_items with
    | Ok t =>
        (Ok t,
         append_row (_ensure_sales_file_has_header f)
           (transaction_row customer_name order_items t payment_method timestamp))
    | Raise e => (Raise e, f)
    end.
Proof.
  intros Hn Hi. unfold save_transaction_with, transaction_row.
  destruct (Str.strip customer_name); [congruence|].
  destruct order_items; [congruence|].
  destruct (calculate_totals _) as [[[? ?] ?]|e]; reflexivity.
Qed.

Lemma append_row_billed (f : file) (row : csv_row) :
  billed f (append_row (_ensure_sales_file_has_header f) row) row.
Proof. destruct f as [[|line lines]|]; reflexivity. Qed.

Lemma calculate_totals_cases (order_items : list OrderItem) :
  ((exists t, billing_core.calculate_totals order_items = Ok t)
   \/ exists msg, billing_core.calculate_totals order_items = Raise (OverflowError msg))
  /\ ((exists t, pos_logic.calculate_totals order_items = Ok t)
      \/ exists msg, pos_logic.calculate_totals order_items = Raise (OverflowError msg)).
Proof.
  unfold billing_core.calculate_totals, pos_logic.calculate_totals.
  destruct (sum_line_totals_cases order_items Float.zero) as [[_ [sum ->]]|[_ Hs]];
    cbn [bind]; [split; left; eauto|].
  destruct (sum_line_totals Float.zero order_items) as [|[]]; simpl in Hs; try tauto.
  cbn [bind]. split; right; eauto.
Qed.






(** ** The handlers of the window *)

Lemma add_to_order_cases (g : gui.PosGUI) :
  match gui._on_add_to_order g with
  | gui.Done g' None =>
      exists item t,
        entered_item item
        /\ name item = Str.strip (gui.selected_item_var g)
        /\ quantity_line_accepted (gui.quantity_var g) (quantity item)
        /\ gui.order_items g' = gui.order_items g ++ [item]
        /\ same_entries g g'
        /\ pos_logic.calculate_totals (gui.order_items g') = Ok t
        /\ displays g' t
  | gui.Done g' (Some _) => g' = g
  | gui.Escaped g' e =>
      exists item msg,
        e = OverflowError msg
        /\ entered_item item
        /\ gui.order_items g' = gui.order_items g ++ [item]
        /\ same_entries g g'
        /\ pos_logic.calculate_totals (gui.order_items g') = Raise e
  end.
Proof.
  unfold gui._on_add_to_order.
  destruct (Str.strip (gui.selected_item_var g)) as [|a n] eqn:Hsel; [reflexivity|].
  destruct (Unicode.isdigit (Str.strip (gui.quantity_var g))) eqn:Hd; [|reflexivity].
  cbn [negb].
  destruct (of_str_isdigit_cases _ Hd) as [[_ (q & Hq & _)]|[_ Hr]];
    [|rewrite Hr; reflexivity].
  rewrite Hq. cbn [bind]. unfold validate_quantity.
  destruct (q <=? 0) eqn:Hle; [reflexivity|]. apply Z.leb_gt in Hle.
  destruct (get_all_items !! String a n) as [price|] eqn:Hprice; [|reflexivity].
  unfold gui._recalculate_totals. cbn [gui.order_items].
  assert (Hitem : entered_item (mkOrderItem (String a n) q price))
    by (split; [exact Hprice | exact Hle]).
  destruct (calculate_totals_cases (gui.order_items g ++ [mkOrderItem (String a n) q price]))
    as [_ [[[[subtotal gst_amount] final_total] Ht]|[msg Ht]]]; rewrite Ht; cbn [bind].
  - exists (mkOrderItem (String a n) q price), (subtotal, gst_amount, final_total).
    split; [exact Hitem|]. split; [reflexivity|].
    split; [split; [exact Hd|]; split; [exact Hq | exact Hle]|].
    split; [reflexivity|]. split; [repeat split|]. split; [exact Ht|].
    repeat split.
  - exists (mkOrderItem (String a n) q price), msg.
    split; [reflexivity|]. split; [exact Hitem|]. split; [reflexivity|].
    split; [repeat split | exact Ht].
Qed.

(** X18. [_on_add_to_order] either changes nothing and shows a message,
    or appends one item to the order: the selected item of the menu at
    its menu price, in the positive quantity that the quantity entry
    denotes. When it returns after appending, the three labels show the
    totals of the new order. The only exception that can leave it is the
    [OverflowError] of the totals, and then the item has been appended
    and the labels have not been updated. *)
Theorem add_to_order_outcome (g : gui.PosGUI) :
  match gui._on_add_to_order g with
  | gui.Done g' None =>
      exists item t,
        entered_item item
        /\ name item = Str.strip (gui.selected_item_var g)
        /\ quantity_line_accepted (gui.quantity_var g) (quantity item)
        /\ gui.order_items g' = gui.order_items g ++ [item]
        /\ same_entries g g'
        /\ pos_logic.calculate_totals (gui.order_items g') = Ok t
        /\ displays g' t
  | gui.Done g' (Some _) => g' = g
  | gui.Escaped g' e =>
      exists item msg,
        e = OverflowError msg
        /\ entered_item item
        /\ gui.order_items g' = gui.order_items g ++ [item]
        /\ same_entries g g'
        /\ pos_logic.calculate_totals (gui.order_items g') = Raise e
  end.
Proof. exact (add_to_order_cases g). Qed.

Lemma transaction_row_strip (customer_name : string) (order_items : list OrderItem)
    (t : totals) (payment_method timestamp : string) :
  transaction_row (Str.strip customer_name) order_items t (Str.strip payment_method)
    timestamp
  = transaction_row customer_name order_items t payment_method timestamp.
Proof. unfold transaction_row. rewrite !strip_idempotent. reflexivity. Qed.

Lemma generate_bill_cases (timestamp : string) (g : gui.PosGUI) (f : file) :
  match gui._on_generate_bill timestamp g f with
  | (gui.Done g' (Some (gui.showinfo _)), f') =>
      exists t,
        Str.strip (gui.customer_name_var g) <> "" /\ gui.order_items g <> []
        /\ pos_logic.calculate_totals (gui.order_items g) = Ok t
        /\ billed f f'
             (transaction_row (gui.customer_name_var g) (gui.order_items g) t
                (gui.payment_method_var g) timestamp)
        /\ gui.order_items g' = []
        /\ displays g' (Float.zero, Float.zero, Float.zero)
        /\ gui.quantity_var g' = "1"
        /\ gui.customer_name_var g' = gui.customer_name_var g
        /\ gui.selected_item_var g' = gui.selected_item_var g
        /\ gui.payment_method_var g' = gui.payment_method_var g
  | (gui.Done g' (Some (gui.showwarning _)), f') =>
      g' = g /\ f' = f
      /\ (Str.strip (gui.customer_name_var g) = "" \/ gui.order_items g = [])
  | (gui.Done g' _, f') => False
  | (gui.Escaped g' e, f') =>
      g' = g /\ f' = f
      /\ exists msg, e = OverflowError msg
                     /\ pos_logic.calculate_totals (gui.order_items g) = Raise e
  end.
Proof.
  unfold gui._on_generate_bill.
  destruct (Str.strip (gui.customer_name_var g)) as [|a n] eqn:Hn; [tauto|].
  destruct (gui.order_items g) as [|item items] eqn:Hi; [tauto|].
  assert (Hstrip : Str.strip (String a n) = String a n)
    by (rewrite <- Hn; apply strip_idempotent).
  unfold pos_logic.save_transaction.
  rewrite save_cases by (rewrite ?Hstrip; discriminate).
  destruct (calculate_totals_cases (item :: items))
    as [_ [[t Ht]|[msg Ht]]]; rewrite Ht.
  - cbn. exists t. split; [discriminate|]. split; [discriminate|].
    split; [reflexivity|]. split.
    + rewrite <- Hn, transaction_row_strip. apply append_row_billed.
    + repeat split.
  - split; [reflexivity|]. split; [reflexivity|]. exists msg. split; reflexivity.
Qed.


(** ** Every run of the window *)




Lemma step_labels_current (g : gui.PosGUI) (f : file) (ev : gui.event) :
  labels_current g -> labels_current (fst (gui.step (g, f) ev)).
Proof.
  intros Hg.
  destruct ev as [text|text|item_name|index| |timestamp]; cbn [gui.step].
  - exact Hg.
  - exact Hg.
  - destruct (_ || _); exact Hg.
  - destruct (gui.PAYMENT_METHODS !! index); exact Hg.
  - cbn [fst]. pose proof (add_to_order_cases g) as H.
    destruct (gui._on_add_to_order g) as [g' [d|]|g' e]; cbn [gui.state_of].
    + subst g'. exact Hg.
    + destruct H as (item & t & _ & _ & _ & _ & _ & Ht & Hdisp).
      unfold labels_current. rewrite Ht. exact Hdisp.
    + destruct H as (item & msg & _ & _ & _ & _ & Ht).
      unfold labels_current. rewrite Ht. exact I.
  - pose proof (generate_bill_cases timestamp g f) as H.
    destruct (gui._on_generate_bill timestamp g f) as [[g' [[title|title|title]|]|g' e] f'];
      cbn [fst gui.state_of].
    + destruct H as (-> & _). exact Hg.
    + destruct H.
    + destruct H as (t & _ & _ & _ & _ & Ho & Hdisp & _).
      unfold labels_current. rewrite Ho.
      destruct calculate_totals_empty as [_ ->]. exact Hdisp.
    + destruct H.
    + destruct H as (-> & _). exact Hg.
Qed.

(** X21. Whatever the user does in the window: whenever the totals of the
    current order can be computed, the three labels show exactly these
    totals, written with two decimals. *)
Theorem window_labels_show_totals (events : list gui.event) (f : file) :
  labels_current (fst (gui.run events f)).
Proof.
  unfold gui.run.
  assert (H : forall g f0, labels_current g ->
                           labels_current (fst (fold_left gui.step events (g, f0)))).
  { induction events as [|ev events IH]; intros g f0 Hg; [exact Hg|].
    cbn [fold_left]. pose proof (step_labels_current g f0 ev Hg) as H1.
    destruct (gui.step (g, f0) ev) as [g1 f1]. apply IH, H1. }
  apply H. vm_compute. repeat split.
Qed.

Lemma pos_logic_overflow_iff (order_items : list OrderItem) :
  is_OverflowError (pos_logic.calculate_totals order_items)
  <-> ~ quantities_convert order_items.
Proof.
  unfold pos_logic.calculate_totals.
  destruct (sum_line_totals_cases order_items Float.zero) as [[Hq [sum ->]]|[Hq Hs]];
    cbn [bind].
  - simpl. tauto.
  - destruct (sum_line_totals Float.zero order_items) as [|[]]; simpl in *; tauto.
Qed.

Lemma overflow_stays (order_items more : list OrderItem) :
  is_OverflowError (pos_logic.calculate_totals order_items) ->
  is_OverflowError (pos_logic.calculate_totals (order_items ++ more)).
Proof.
  rewrite !pos_logic_overflow_iff. unfold quantities_convert.
  intros H Happ. apply H. apply Forall_app in Happ. tauto.
Qed.

Lemma step_blocked (g : gui.PosGUI) (f : file) (ev : gui.event) :
  is_OverflowError (pos_logic.calculate_totals (gui.order_items g)) ->
  snd (gui.step (g, f) ev) = f
  /\ is_OverflowError
       (pos_logic.calculate_totals (gui.order_items (fst (gui.step (g, f) ev)))).
Proof.
  intros Hg.
  destruct ev as [text|text|item_name|index| |timestamp]; cbn [gui.step].
  - split; [reflexivity | exact Hg].
  - split; [reflexivity | exact Hg].
  - destruct (_ || _); split; try reflexivity; exact Hg.
  - destruct (gui.PAYMENT_METHODS !! index); split; try reflexivity; exact Hg.
  - cbn [fst snd]. split; [reflexivity|].
    pose proof (add_to_order_cases g) as H.
    destruct (gui._on_add_to_order g) as [g' [d|]|g' e]; cbn [gui.state_of].
    + subst g'. exact Hg.
    + destruct H as (item & t & _ & _ & _ & Ho & _). rewrite Ho. apply overflow_stays, Hg.
    + destruct H as (item & msg & _ & _ & Ho & _). rewrite Ho. apply overflow_stays, Hg.
  - pose proof (generate_bill_cases timestamp g f) as H.
    destruct (gui._on_generate_bill timestamp g f) as [[g' [[title|title|title]|]|g' e] f'];
      cbn [fst snd gui.state_of].
    + destruct H as (-> & -> & _). split; [reflexivity | exact Hg].
    + destruct H.
    + destruct H as (t & _ & _ & Ht & _). rewrite Ht in Hg. destruct Hg.
    + destruct H.
    + destruct H as (-> & -> & _). split; [reflexivity | exact Hg].
Qed.

(** X22. Once the order in the window holds an item whose quantity is too
    large to be converted to a float, so that its totals cannot be
    computed, nothing the user does in the window writes to the sales
    file again, and nothing removes the item: the order is emptied only
    after a bill, and every bill fails with the same [OverflowError]. *)
Theorem unconvertible_quantity_blocks_window
    (g : gui.PosGUI) (f : file) (events : list gui.event) :
  is_OverflowError (pos_logic.calculate_totals (gui.order_items g)) ->
  snd (fold_left gui.step events (g, f)) = f
  /\ is_OverflowError
       (pos_logic.calculate_totals
          (gui.order_items (fst (fold_left gui.step events (g, f))))).
Proof.
  revert g. induction events as [|ev events IH]; intros g Hg; [split; [reflexivity | exact Hg]|].
  cbn [fold_left]. destruct (step_blocked g f ev Hg) as [Hf Hg1].
  destruct (gui.step (g, f) ev) as [g1 f1]. cbn [fst snd] in *. subst f1.
  apply IH, Hg1.
Qed.

Lemma unconvertible_quantity_blocks_window_witness :
  snd (fold_left gui.step
         [gui.type_customer_name "Asha"; gui.click_generate_bill "2024-05-01 18:00:00"]
         (fst (gui.run [gui.click_item "Latte"; gui.type_quantity (Int.to_str (10 ^ 400));
                        gui.click_add_to_order] None), None))
  = None
  /\ is_OverflowError
       (pos_logic.calculate_totals
          (gui.order_items
             (fst (fold_left gui.step
                     [gui.type_customer_name "Asha";
                      gui.click_generate_bill "2024-05-01 18:00:00"]
                     (fst (gui.run [gui.click_item "Latte";
                                    gui.type_quantity (Int.to_str (10 ^ 400));
                                    gui.click_add_to_order] None), None))))).
Proof.
  apply (unconvertible_quantity_blocks_window
           (fst (gui.run [gui.click_item "Latte"; gui.type_quantity (Int.to_str (10 ^ 400));
                          gui.click_add_to_order] None))
           None
           [gui.type_customer_name "Asha"; gui.click_generate_bill "2024-05-01 18:00:00"]).
  vm_compute. exact I.
Defined.

(** ** The two copies of the totals, and rows without amounts *)

(** X23. The two copies of [calculate_totals] always return the same
    subtotal, the sum of the line totals rounded to two decimals; and
    when rounding does not change the sum they return the same tax and
    the same final total as well. *)
Theorem calculate_totals_copies_agree_on_subtotal
    (order_items : list OrderItem) (sum : Float.float) :
  sum_line_totals Float.zero order_items = Ok sum ->
  exists gst1 total1 gst2 total2,
    billing_core.calculate_totals order_items = Ok (Float.round2 sum, gst1, total1)
    /\ pos_logic.calculate_totals order_items = Ok (Float.round2 sum, gst2, total2)
    /\ (Float.round2 sum = sum -> gst1 = gst2 /\ total1 = total2).
Proof.
  intros Hsum. unfold billing_core.calculate_totals, pos_logic.calculate_totals.
  rewrite Hsum. cbn [bind]. do 4 eexists. split; [reflexivity|]. split; [reflexivity|].
  intros ->. split; reflexivity.
Qed.

Lemma calculate_totals_copies_agree_on_subtotal_witness :
  exists gst1 total1 gst2 total2,
    billing_core.calculate_totals latte_and_vada_pav
    = Ok (Float.round2 (lit 270 0), gst1, total1)
    /\ pos_logic.calculate_totals latte_and_vada_pav
       = Ok (Float.round2 (lit 270 0), gst2, total2)
    /\ (Float.round2 (lit 270 0) = lit 270 0 -> gst1 = gst2 /\ total1 = total2).
Proof.
  apply (calculate_totals_copies_agree_on_subtotal latte_and_vada_pav (lit 270 0)).
  vm_compute. reflexivity.
Defined.

Lemma float_of_blank_cell (row : dict_row) (key : string) :
  cell_blank row key -> admin.float_of_cell (row_get row key "0") = Ok Float.zero.
Proof.
  unfold row_get. intros [->|[->| ->]]; vm_compute; reflexivity.
Qed.

Lemma parse_blank_cell (row : dict_row) (key : string) :
  cell_blank row key -> admin._parse_ordered_items (row_get row key "") = Ok [].
Proof.
  unfold row_get. intros [->|[->| ->]]; reflexivity.
Qed.

(** X24. Rows that have nothing under [FinalTotal], [GST] and
    [OrderedItems] (the column is missing, the line is too short, or the
    cell is empty) are counted by [compute_daily_summary] and add nothing:
    the summary is 0.0, 0.0, the number of rows and [N/A]. *)
Theorem summary_of_rows_without_amounts (rows : list dict_row) :
  Forall (fun row => cell_blank row "FinalTotal" /\ cell_blank row "GST"
                     /\ cell_blank row "OrderedItems") rows ->
  admin.compute_daily_summary rows
  = Ok (Float.zero, Float.zero, Z.of_nat (length rows), "N/A").
Proof.
  intros Hrows.
  assert (Hloop : admin.summary_loop (admin.mkTally Float.zero Float.zero []) rows
                  = Ok (admin.mkTally Float.zero Float.zero [])).
  { induction Hrows as [|row rows (Hf & Hg & Ho) _ IH]; [reflexivity|].
    cbn [admin.summary_loop]. unfold admin.summary_step.
    rewrite (float_of_blank_cell row _ Hf), (float_of_blank_cell row _ Hg),
      (parse_blank_cell row _ Ho).
    cbn. exact IH. }
  unfold admin.compute_daily_summary. destruct rows as [|row rows]; [reflexivity|].
  rewrite Hloop. reflexivity.
Qed.

Lemma summary_of_rows_without_amounts_witness :
  admin.compute_daily_summary (DictReader [["Name"; "Note"]; ["Asha"; "paid"]; ["Ravi"]])
  = Ok (Float.zero, Float.zero,
        Z.of_nat (length (DictReader [["Name"; "Note"]; ["Asha"; "paid"]; ["Ravi"]])),
        "N/A").
Proof.
  apply (summary_of_rows_without_amounts
           (DictReader [["Name"; "Note"]; ["Asha"; "paid"]; ["Ravi"]])).
  repeat constructor; vm_compute; reflexivity.
Defined.

(** ** A sale in the window *)




(** * The console bot *)

Lemma choose_loop_cases (menu_dict : gmap string (string * Z)) (n : nat) :
  forall (inputs : list string) (order : list coffeebot.order_line),
    (length inputs <= n)%nat ->
    Forall (menu_line menu_dict) order ->
    match coffeebot.choose_loop menu_dict order inputs with
    | Returned order' rest =>
        Forall (menu_line menu_dict) order'
        /\ order `prefix_of` order'
        /\ exists read, inputs = read ++ rest
    | Uncaught e => e = EOFError \/ e = Builtin invalid_literal
    end.
Proof.
  induction n as [|n IH]; intros inputs order Hlen Horder.
  - destruct inputs; [left; reflexivity | simpl in Hlen; lia].
  - destruct inputs as [|line rest]; [left; reflexivity|].
    cbn [coffeebot.choose_loop]. cbn [length] in Hlen.
    assert (Hrec : forall skipped rest' order',
               rest = skipped ++ rest' -> Forall (menu_line menu_dict) order' ->
               order `prefix_of` order' ->
               match coffeebot.choose_loop menu_dict order' rest' with
               | Returned order'' rest'' =>
                   Forall (menu_line menu_dict) order''
                   /\ order `prefix_of` order''
                   /\ exists read, line :: rest = read ++ rest''
               | Uncaught e => e = EOFError \/ e = Builtin invalid_literal
               end).
    { intros skipped rest' order' -> Ho' Hpre.
      rewrite length_app in Hlen.
      pose proof (IH rest' order' ltac:(lia) Ho') as H.
      destruct (coffeebot.choose_loop menu_dict order' rest') as [order'' rest''|e];
        [|exact H].
      destruct H as (Hall & Hpre' & read & ->). split; [exact Hall|].
      split; [etransitivity; eassumption|].
      exists (line :: skipped ++ read). cbn. rewrite <- app_assoc. reflexivity. }
    destruct (Str.strip line) as [|a c] eqn:Hchoice.
    + split; [exact Horder|]. split; [reflexivity|]. exists [line]. reflexivity.
    + destruct (decide (is_Some (menu_dict !! String a c))) as [Hin|Hout].
      * rewrite bool_decide_true by exact Hin. cbn [negb].
        destruct rest as [|line2 rest2]; [left; reflexivity|].
        destruct (Unicode.isdigit (Str.strip line2)) eqn:Hd; cbn [negb];
          [|apply (Hrec [line2]); [reflexivity | exact Horder | reflexivity]].
        destruct (of_str_isdigit_cases _ Hd) as [[_ (q & Hq & _)]|[_ Hr]];
          [|rewrite Hr; right; reflexivity].
        rewrite Hq. destruct (q <=? 0) eqn:Hle;
          [apply (Hrec [line2]); [reflexivity | exact Horder | reflexivity]|].
        apply Z.leb_gt in Hle.
        destruct Hin as [[item_name price] Hitem]. rewrite Hitem.
        assert (Ho' : Forall (menu_line menu_dict) (order ++ [(item_name, price, q)])).
        { apply Forall_app. split; [exact Horder|]. constructor; [|constructor].
          split; [exact Hle|]. exists (String a c). exact Hitem. }
        destruct rest2 as [|line3 rest3]; [left; reflexivity|].
        destruct (bool_decide (Unicode.lower (Str.strip line3) ∈ ["yes"; "y"])); cbn [negb].
        -- apply (Hrec [line2; line3]); [reflexivity | exact Ho'|].
           apply prefix_app_r. reflexivity.
        -- split; [exact Ho'|]. split; [apply prefix_app_r; reflexivity|].
           exists [line; line2; line3]. reflexivity.
      * rewrite bool_decide_false by exact Hout. cbn [negb].
        apply (Hrec []); [reflexivity | exact Horder | reflexivity].
Qed.

(** X26. [choose_items] comes to an end on every input and every menu.
    Each entry of the order it returns has the name and the price of an
    item of the menu and a positive quantity; the lookup in the menu never
    misses. It can be left only by [EOFError] or by the [ValueError] of
    [int()], which a quantity that passes [isdigit] without being an
    integer literal raises in the test of the quantity. *)
Theorem choose_items_outcome (menu_dict : gmap string (string * Z))
    (inputs : list string) :
  match coffeebot.choose_items menu_dict inputs with
  | Returned order rest =>
      Forall (menu_line menu_dict) order /\ exists read, inputs = read ++ rest
  | Uncaught e => e = EOFError \/ e = Builtin invalid_literal
  end.
Proof.
  unfold coffeebot.choose_items.
  pose proof (choose_loop_cases menu_dict (length inputs) inputs [] (le_n _)
                (List.Forall_nil _)) as H.
  destruct (coffeebot.choose_loop menu_dict [] inputs) as [order rest|e]; [|exact H].
  destruct H as (Hall & _ & Hread). split; assumption.
Qed.









(** * The report after a session *)






